(** * A shallow embedding of esxi-analyzer's collector, detector engine and
      report aggregation (src/lib/collector.py, src/lib/analyzer.py,
      src/lib/report.py), with the claims of its specification settled
      against it.

    Text model: a Python [str] read from a staged file is modelled as a Rocq
    [string] whose characters are read as the Latin-1 range of Unicode code
    points (0..255).  Character classes ([\s], [\d], [\w]), [str.lower],
    [str.strip] and case-insensitive matching follow Python's Unicode rules
    restricted to that range.

    Integers: Python [int] is [Z]; [int(s)] on a decimal digit string is its
    exact value (the interpreter's configurable digit-count limit for
    str/int conversion is an interpreter setting and is not modelled).

    Floats: Python [float] is IEEE binary64 with round-to-nearest-even; it is
    modelled exactly below (finite values as [m * 2^e], plus infinities). *)

From Stdlib Require Import ZArith List Ascii String Bool Lia Permutation Sorted.
Import ListNotations.
Open Scope string_scope.

(* ------------------------------------------------------------------ *)
(** ** Characters and strings *)

Module Text.

Definition code (c : ascii) : nat := nat_of_ascii c.

Definition in_range (lo hi : nat) (c : ascii) : bool :=
  Nat.leb lo (code c) && Nat.leb (code c) hi.

(** [str.isspace] / regex [\s] on Latin-1. *)
Definition is_space (c : ascii) : bool :=
  in_range 9 13 c || in_range 28 32 c || Nat.eqb (code c) 133 || Nat.eqb (code c) 160.

(** regex [\d]: Unicode decimal digits; in Latin-1 only ASCII [0-9]. *)
Definition is_digit (c : ascii) : bool := in_range 48 57 c.

(** regex [\w]: alphanumeric (alpha, decimal, digit, numeric) or underscore. *)
Definition is_word (c : ascii) : bool :=
  in_range 48 57 c || in_range 65 90 c || in_range 97 122 c || Nat.eqb (code c) 95
  || Nat.eqb (code c) 170 || Nat.eqb (code c) 178 || Nat.eqb (code c) 179 || Nat.eqb (code c) 181
  || Nat.eqb (code c) 185 || Nat.eqb (code c) 186 || in_range 188 190 c
  || in_range 192 214 c || in_range 216 246 c || in_range 248 255 c.

(** [str.lower] on one Latin-1 character. *)
Definition lower_char (c : ascii) : ascii :=
  if in_range 65 90 c || (in_range 192 222 c && negb (Nat.eqb (code c) 215))
  then ascii_of_nat (code c + 32) else c.

Fixpoint lower (s : string) : string :=
  match s with
  | EmptyString => EmptyString
  | String c s' => String (lower_char c) (lower s')
  end.

(** [prefix p s]: [s.startswith(p)]. *)
Fixpoint starts_with (p s : string) : bool :=
  match p, s with
  | EmptyString, _ => true
  | String a p', String b s' => Ascii.eqb a b && starts_with p' s'
  | String _ _, EmptyString => false
  end.

(** [p in s] for strings. *)
Fixpoint contains (p s : string) : bool :=
  starts_with p s ||
  match s with
  | EmptyString => false
  | String _ s' => contains p s'
  end.

(** [s.split(sep)] for a one-character separator. *)
Fixpoint split_char (sep : ascii) (s : string) : list string :=
  match s with
  | EmptyString => [EmptyString]
  | String c s' =>
      if Ascii.eqb c sep then EmptyString :: split_char sep s'
      else match split_char sep s' with
           | [] => [String c EmptyString]
           | w :: ws => String c w :: ws
           end
  end.

Definition nl : ascii := ascii_of_nat 10.

(** [s.split('\n')]. *)
Definition lines (s : string) : list string := split_char nl s.

Fixpoint lstrip (s : string) : string :=
  match s with
  | String c s' => if is_space c then lstrip s' else s
  | EmptyString => EmptyString
  end.

Definition rev_string (s : string) : string :=
  string_of_list_ascii (rev (list_ascii_of_string s)).

(** [s.strip()]: removes leading and trailing whitespace. *)
Definition strip (s : string) : string := rev_string (lstrip (rev_string (lstrip s))).

(** [s.replace(a, b)] for single characters. *)
Fixpoint replace_char (a b : ascii) (s : string) : string :=
  match s with
  | EmptyString => EmptyString
  | String c s' => String (if Ascii.eqb c a then b else c) (replace_char a b s')
  end.

(** [s[i:j]] for [0 <= i <= j]. *)
Definition slice (i j : nat) (s : string) : string := substring i (j - i) s.

(** [str(n)] for a non-negative [int]. *)
Fixpoint digits_rev (fuel : nat) (n : Z) : string :=
  match fuel with
  | O => EmptyString
  | S f =>
      let d := String (ascii_of_nat (48 + Z.to_nat (n mod 10))) EmptyString in
      if (n <? 10)%Z then d else digits_rev f (n / 10)%Z ++ d
  end.

(** [str(n)] for a Python [int]. *)
Definition str_int (n : Z) : string :=
  if (n <? 0)%Z then "-" ++ digits_rev (S (Z.to_nat (Z.log2 (- n)))) (- n)
  else digits_rev (S (Z.to_nat (Z.log2 n))) n.

(** [int(s)] on a (non-empty) string of ASCII digits, as the regex groups
    [(\d+)] deliver it. *)
Fixpoint digits_value_acc (acc : Z) (s : string) : Z :=
  match s with
  | EmptyString => acc
  | String c s' => digits_value_acc (acc * 10 + Z.of_nat (code c - 48))%Z s'
  end.

Definition int_of_digits (s : string) : Z := digits_value_acc 0 s.

End Text.

(* ------------------------------------------------------------------ *)
(** ** Regular expressions

    The patterns of the analyzer only use literal characters, the classes
    [\d], [\w], [\s], [\S] and [.], the quantifiers [+] (greedy) and [*?]
    (lazy) applied to one class, and non-nested capture groups.  [match_re]
    is a backtracking matcher for that fragment which tries the
    alternatives in the order of Python's [re] engine: a greedy repetition
    first takes the longest run and gives characters back one at a time; a
    lazy one starts from the empty run. *)

Module Regex.
Import Text.

Inductive cls := CDigit | CWord | CSpace | CNonSpace | CAny.

Definition in_cls (k : cls) (c : ascii) : bool :=
  match k with
  | CDigit => is_digit c
  | CWord => is_word c
  | CSpace => is_space c
  | CNonSpace => negb (is_space c)
  | CAny => negb (Ascii.eqb c nl)
  end.

Inductive atom :=
  | Lit (c : ascii)
  | Plus (k : cls)
  | LazyStar (k : cls)
  | Open
  | Close.

Definition regex := list atom.

Fixpoint lits (s : string) : regex :=
  match s with
  | EmptyString => []
  | String c s' => Lit c :: lits s'
  end.

(** Character comparison; with [re.IGNORECASE] both sides are lowered. *)
Definition char_eq (icase : bool) (a b : ascii) : bool :=
  if icase then Ascii.eqb (lower_char a) (lower_char b) else Ascii.eqb a b.

Fixpoint run_len (k : cls) (s : string) : nat :=
  match s with
  | String c s' => if in_cls k c then S (run_len k s') else O
  | EmptyString => O
  end.

Fixpoint drop (n : nat) (s : string) : string :=
  match n, s with
  | O, _ => s
  | S n', String _ s' => drop n' s'
  | S _, EmptyString => EmptyString
  end.

(** [match_re ic r s caps op]: match [r] at the start of [s]; [caps] are the
    groups closed so far (last first), [op] the input where the open group
    started.  Returns the unconsumed input and the groups. *)
Fixpoint match_re (ic : bool) (r : regex) (s : string) (caps : list string)
    (op : string) {struct r} : option (string * list string) :=
  match r with
  | [] => Some (s, caps)
  | Lit c :: r' =>
      match s with
      | String d s' => if char_eq ic c d then match_re ic r' s' caps op else None
      | EmptyString => None
      end
  | Plus k :: r' =>
      let fix down (j : nat) :=
        match j with
        | O => None
        | S j' =>
            match match_re ic r' (drop j s) caps op with
            | Some x => Some x
            | None => down j'
            end
        end in
      down (run_len k s)
  | LazyStar k :: r' =>
      let fix up (j left : nat) :=
        match match_re ic r' (drop j s) caps op with
        | Some x => Some x
        | None =>
            match left with
            | O => None
            | S l => up (S j) l
            end
        end in
      up O (run_len k s)
  | Open :: r' => match_re ic r' s caps s
  | Close :: r' =>
      match_re ic r' s (substring 0 (length op - length s) op :: caps) op
  end.

(** A match object: [start()], [end()] and the groups in order. *)
Record mobj := { m_start : nat; m_end : nat; m_groups : list string }.

Definition group (m : mobj) (i : nat) : string := nth (i - 1) (m_groups m) EmptyString.

(** [re.search] from position [pos] on the suffix [s]. *)
Fixpoint search_from (ic : bool) (r : regex) (s : string) (pos : nat) : option mobj :=
  match match_re ic r s [] EmptyString with
  | Some (rest, caps) =>
      Some {| m_start := pos; m_end := pos + (length s - length rest);
              m_groups := rev caps |}
  | None =>
      match s with
      | EmptyString => None
      | String _ s' => search_from ic r s' (S pos)
      end
  end.

Definition search_ic (ic : bool) (r : regex) (s : string) : option mobj :=
  search_from ic r s 0.

(** [re.search(pattern, s)]. *)
Definition search (r : regex) (s : string) : option mobj := search_ic false r s.

(** [re.finditer]: successive non-overlapping matches, left to right; a
    search resumes where the previous match ended. *)
Fixpoint finditer_from (fuel : nat) (ic : bool) (r : regex) (s : string)
    (pos : nat) : list mobj :=
  match fuel with
  | O => []
  | S f =>
      match search_from ic r s pos with
      | None => []
      | Some m =>
          let e := Nat.max (m_end m) (S (m_start m)) in
          m :: finditer_from f ic r (drop (e - pos) s) e
      end
  end.

Definition finditer (ic : bool) (r : regex) (s : string) : list mobj :=
  finditer_from (S (length s)) ic r s 0.

(** [re.findall] returns one item per match of [finditer]; the analyzer only
    uses the groups of each match and the number of matches. *)
Definition findall (ic : bool) (r : regex) (s : string) : list (list string) :=
  map m_groups (finditer ic r s).

End Regex.

(* ------------------------------------------------------------------ *)
(** ** IEEE binary64 (Python [float])

    A finite double is [Fin m e] with value [m * 2^e]; [round_q n d] rounds
    the rational [n/d] ([d > 0]) to the nearest double, ties to even, with
    subnormals, and reports overflow (a result of magnitude [>= 2^1024]) as
    [None].  The sign of zero is not modelled: no computation of the
    analyzer produces a negative zero. *)

Module F64.
Local Open Scope Z_scope.

Inductive fl := Fin (m e : Z) | PInf | NInf | NaN.

(** Exact value of a finite double as a fraction with positive denominator. *)
Definition frac_of (m e : Z) : Z * Z :=
  if 0 <=? e then (m * 2 ^ e, 1) else (m, 2 ^ (- e)).

(** [floor (log2 (a/d))] for [a, d > 0]. *)
Definition flog2 (a d : Z) : Z :=
  let t := Z.log2 a - Z.log2 d in
  if d * 2 ^ Z.max 0 t <=? a * 2 ^ Z.max 0 (- t) then t else t - 1.

(** Round half to even of the non-negative rational [a/d]. *)
Definition round_half_even (a d : Z) : Z :=
  let q := a / d in
  let r := a mod d in
  if d <? 2 * r then q + 1
  else if 2 * r =? d then (if Z.odd q then q + 1 else q)
  else q.

Definition round_q (n d : Z) : option fl :=
  if n =? 0 then Some (Fin 0 0) else
  let a := Z.abs n in
  let e := Z.max (flog2 a d - 52) (-1074) in
  let m := if 0 <=? e then round_half_even a (d * 2 ^ e)
           else round_half_even (a * 2 ^ (- e)) d in
  if 1024 <=? Z.log2 m + e then None
  else Some (Fin (Z.sgn n * m) e).

(** Rounding where overflow gives an infinity ([float('1e400')], [x * y]). *)
Definition round_inf (n d : Z) : fl :=
  match round_q n d with
  | Some x => x
  | None => if 0 <? n then PInf else NInf
  end.

(** Extended rationals, for exact comparisons between Python numbers. *)
Inductive xr := XFin (n d : Z) | XPInf | XNInf | XNaN.

Definition to_xr (x : fl) : xr :=
  match x with
  | Fin m e => let '(n, d) := frac_of m e in XFin n d
  | PInf => XPInf
  | NInf => XNInf
  | NaN => XNaN
  end.

(** [x < y] on Python numbers (false as soon as a NaN is involved). *)
Definition xlt (x y : xr) : bool :=
  match x, y with
  | XNaN, _ | _, XNaN => false
  | XFin a b, XFin c d => a * d <? c * b
  | XNInf, XNInf | XPInf, _ | _, XNInf => false
  | XNInf, _ | _, XPInf => true
  end.

(** [float(s)] for [s] matching [\d+\.\d+]: the integer and fractional digit
    strings. *)
Definition of_decimal (ip fp : string) : fl :=
  let k := Z.of_nat (length fp) in
  round_inf (Text.int_of_digits ip * 10 ^ k + Text.int_of_digits fp) (10 ^ k).

(** [float(n)] for an [int] (used when an [int] meets a [float] in [-] or
    [*]). *)
Definition of_int (n : Z) : fl := round_inf n 1.

Definition sgn_inf (pos : bool) : fl := if pos then PInf else NInf.

(** [x * y]. *)
Definition mul (x y : fl) : fl :=
  match x, y with
  | NaN, _ | _, NaN => NaN
  | Fin m1 e1, Fin m2 e2 => let '(n, d) := frac_of (m1 * m2) (e1 + e2) in round_inf n d
  | Fin m _, PInf | PInf, Fin m _ => if m =? 0 then NaN else sgn_inf (0 <? m)
  | Fin m _, NInf | NInf, Fin m _ => if m =? 0 then NaN else sgn_inf (m <? 0)
  | PInf, PInf | NInf, NInf => PInf
  | PInf, NInf | NInf, PInf => NInf
  end.

(** [x - y]. *)
Definition sub (x y : fl) : fl :=
  match x, y with
  | NaN, _ | _, NaN => NaN
  | Fin m1 e1, Fin m2 e2 =>
      let '(a, b) := frac_of m1 e1 in
      let '(c, d) := frac_of m2 e2 in
      round_inf (a * d - c * b) (b * d)
  | PInf, PInf | NInf, NInf => NaN
  | PInf, _ | _, NInf => PInf
  | NInf, _ | _, PInf => NInf
  end.

(** [a / b] on two Python [int]s with [b <> 0] (true division, correctly
    rounded); [None] is the [OverflowError] raised when the quotient is too
    large for a float. *)
Definition int_truediv (a b : Z) : option fl :=
  if 0 <? b then round_q a b else round_q (- a) (- b).

(** [format(x, '.1f')]. *)
Definition fmt_1f (x : fl) : string :=
  match x with
  | NaN => "nan"
  | PInf => "inf"
  | NInf => "-inf"
  | Fin m e =>
      let '(n, d) := frac_of m e in
      let w := round_half_even (Z.abs n * 10) d in
      (if n <? 0 then "-" else "") ++ Text.str_int (w / 10) ++ "."
        ++ Text.str_int (w mod 10)
  end.

(** Number of decimal digits of a positive integer. *)
Definition ndigits (z : Z) : Z := Z.of_nat (String.length (Text.str_int z)).

(** [floor (log10 (n/d))] for [n, d > 0]. *)
Definition flog10 (n d : Z) : Z :=
  let t := ndigits n - ndigits d in
  if 0 <=? t then (if d * 10 ^ t <=? n then t else t - 1)
  else (if d <=? n * 10 ^ (- t) then t else t - 1).

(** Shortest decimal digit string (as an integer [D] with [v ~ D * 10^-s])
    that reads back as the double [x = n/d > 0]: for [p = 1, 2, ...] the two
    [p]-digit neighbours of [x] are tried, the nearer first. *)
Definition same_fl (x y : fl) : bool :=
  match x, y with
  | Fin m1 e1, Fin m2 e2 =>
      let '(a, b) := frac_of m1 e1 in let '(c, d) := frac_of m2 e2 in a * d =? c * b
  | _, _ => false
  end.

Definition dec_fl (dd s : Z) : fl :=
  if 0 <=? s then round_inf dd (10 ^ s) else round_inf (dd * 10 ^ (- s)) 1.

Fixpoint shortest (fuel : nat) (p : Z) (x : fl) (n d : Z) : Z * Z :=
  let s := p - 1 - flog10 n d in
  let '(a, b) := if 0 <=? s then (n * 10 ^ s, d) else (n, d * 10 ^ (- s)) in
  let lo := a / b in
  let hi := lo + 1 in
  let lo_ok := same_fl (dec_fl lo s) x in
  let hi_ok := same_fl (dec_fl hi s) x in
  let lo_first := (2 * (a - lo * b) <? b) || ((2 * (a - lo * b) =? b) && Z.even lo) in
  match fuel with
  | O => (lo, s)
  | S f =>
      if lo_ok && hi_ok then (if lo_first then (lo, s) else (hi, s))
      else if lo_ok then (lo, s)
      else if hi_ok then (hi, s)
      else shortest f (p + 1) x n d
  end.

Fixpoint strip_zeros (fuel : nat) (dd s : Z) : Z * Z :=
  match fuel with
  | O => (dd, s)
  | S f => if (dd mod 10 =? 0) && (0 <? dd) then strip_zeros f (dd / 10) (s - 1) else (dd, s)
  end.

Fixpoint zeros (k : nat) : string :=
  match k with O => "" | S k' => "0" ++ zeros k' end.

(** [repr(x)] = [str(x)] for a float (Python's shortest round-trip repr:
    positional notation when the decimal exponent is in [-4, 16), else
    scientific notation with a signed two-digit exponent). *)
Definition repr (x : fl) : string :=
  match x with
  | NaN => "nan"
  | PInf => "inf"
  | NInf => "-inf"
  | Fin m e =>
      if m =? 0 then "0.0" else
      let '(n0, d) := frac_of m e in
      let n := Z.abs n0 in
      let '(dd, s) := shortest 20 1 (Fin (Z.abs m) e) n d in
      let '(dd, s) := strip_zeros 20 dd s in
      let ds := Text.str_int dd in
      let nd := Z.of_nat (String.length ds) in
      let decpt := nd - s in
      let body :=
        if (decpt <=? -4) || (16 <? decpt) then
          let ex := decpt - 1 in
          String.substring 0 1 ds
          ++ (if 1 <? nd then "." ++ String.substring 1 (Z.to_nat nd - 1) ds else "")
          ++ "e" ++ (if ex <? 0 then "-" else "+")
          ++ (if Z.abs ex <? 10 then "0" else "") ++ Text.str_int (Z.abs ex)
        else if decpt <=? 0 then "0." ++ zeros (Z.to_nat (- decpt)) ++ ds
        else if nd <=? decpt then ds ++ zeros (Z.to_nat (decpt - nd)) ++ ".0"
        else String.substring 0 (Z.to_nat decpt) ds ++ "."
               ++ String.substring (Z.to_nat decpt) (Z.to_nat (nd - decpt)) ds in
      (if m <? 0 then "-" else "") ++ body
  end.

End F64.

(* ------------------------------------------------------------------ *)
(** ** Findings and configuration (analyzer.py [Issue], config.py) *)

Module Analyzer.
Import Text Regex F64.

Record Issue := mkIssue {
  title : string;
  description : string;
  category : string;
  severity : string;
  evidence : list string;
  solution : string;
  doc_links : list string }.

Definition SEVERITY_LOW := "low".
Definition SEVERITY_MEDIUM := "medium".
Definition SEVERITY_HIGH := "high".
Definition SEVERITY_CRITICAL := "critical".

Definition CATEGORY_STORAGE := "storage".
Definition CATEGORY_NETWORK := "network".
Definition CATEGORY_CPU := "cpu".
Definition CATEGORY_MEMORY := "memory".
Definition CATEGORY_VM := "vm".
Definition CATEGORY_CONFIG := "configuration".
Definition CATEGORY_SECURITY := "security".
Definition CATEGORY_HARDWARE := "hardware".

(** A numeric configuration value as YAML delivers it. *)
Inductive pynum := PInt (z : Z) | PFloat (f : fl).

Definition num_xr (v : pynum) : xr :=
  match v with PInt z => XFin z 1 | PFloat f => to_xr f end.

Definition str_num (v : pynum) : string :=
  match v with PInt z => str_int z | PFloat f => repr f end.

Definition truthy (v : pynum) : bool :=
  match v with
  | PInt z => negb (z =? 0)%Z
  | PFloat (Fin m _) => negb (m =? 0)%Z
  | PFloat _ => true
  end.

(** The resolved configuration: [config.get('thresholds.<name>')] and
    [config.get('kb_articles.<name>', '')]. *)
Record Config := mkConfig {
  thresholds : string -> option pynum;
  kb_articles : string -> option string }.

(** [config.get_threshold(name) or dflt]. *)
Definition threshold_or (cfg : Config) (name : string) (dflt : pynum) : pynum :=
  match thresholds cfg name with
  | Some v => if truthy v then v else dflt
  | None => dflt
  end.

(** [config.get_kb_article(name) or dflt]. *)
Definition kb_or (cfg : Config) (name dflt : string) : string :=
  match kb_articles cfg name with
  | Some "" | None => dflt
  | Some u => u
  end.

(** The configuration of [Config._load_defaults] (no config file found). *)
Definition default_config : Config :=
  {| thresholds := fun name =>
       if String.eqb name "high_latency_ms" then Some (PFloat (Fin 20 0))
       else if String.eqb name "low_datastore_space_percent" then Some (PInt 10)
       else if String.eqb name "high_cpu_percent" then Some (PInt 80)
       else if String.eqb name "high_memory_percent" then Some (PInt 90)
       else if String.eqb name "max_uptime_days" then Some (PInt 180)
       else if String.eqb name "max_snapshot_age_days" then Some (PInt 3)
       else if String.eqb name "min_network_redundancy" then Some (PInt 2)
       else None;
     kb_articles := fun name =>
       if String.eqb name "psod" then Some "https://kb.vmware.com/s/article/1004250"
       else if String.eqb name "storage_latency" then Some "https://kb.vmware.com/s/article/1021244"
       else if String.eqb name "memory_errors" then Some "https://kb.vmware.com/s/article/2146954"
       else if String.eqb name "high_cpu" then Some "https://kb.vmware.com/s/article/2001003"
       else None |}.

(* ------------------------------------------------------------------ *)
(** ** The staging directory as the analyzer sees it *)

(** A directory entry: a readable file, or an entry [open] or [read] fails
    on (a sub-directory, an unreadable file). *)
Inductive entry := EFile (content : string) | EUnreadable.

(** [log_path/logs]: a directory (with its entries in the order [os.listdir]
    returns them) or a non-directory. *)
Inductive logs_node := LogsDir (listing : list (string * entry)) | LogsNotDir.

Record Staging := mkStaging {
  artifacts : list (string * entry);
  logs : option logs_node }.

Fixpoint lookup (name : string) (l : list (string * entry)) : option entry :=
  match l with
  | [] => None
  | (n, x) :: l' => if String.eqb n name then Some x else lookup name l'
  end.

(** [IssueAnalyzer._read_file]: the contents, or [""] when the file does not
    exist or cannot be read. *)
Definition read_file (st : Staging) (filename : string) : string :=
  match lookup filename (artifacts st) with
  | Some (EFile c) => c
  | Some EUnreadable => ""
  | None => ""
  end.

(* ------------------------------------------------------------------ *)
(** ** The analyzer's state and exceptions

    [self.issues] is threaded through the detectors; an uncaught exception
    aborts [analyze]. *)

Inductive exn := OverflowError | NotADirectoryError.

Inductive result (A : Type) := Ok (a : A) | Raise (e : exn).
Arguments Ok {A} a.
Arguments Raise {A} e.

Definition M (A : Type) := list Issue -> result (A * list Issue).

Definition ret {A} (a : A) : M A := fun s => Ok (a, s).
Definition bind {A B} (c : M A) (k : A -> M B) : M B :=
  fun s => match c s with Ok (a, s') => k a s' | Raise e => Raise e end.
Definition throw {A} (e : exn) : M A := fun _ => Raise e.

(** [self.issues.append(issue)]. *)
Definition append (i : Issue) : M unit := fun s => Ok (tt, (s ++ [i])%list).

Notation "x <- c ;; k" := (bind c (fun x => k))
  (at level 61, c at next level, right associativity).
Notation "c ;;; k" := (bind c (fun _ => k)) (at level 61, right associativity).

(** [for x in l: body(x)]. *)
Fixpoint for_each {A} (l : list A) (body : A -> M unit) : M unit :=
  match l with
  | [] => ret tt
  | x :: l' => body x ;;; for_each l' body
  end.

Definition when (b : bool) (c : M unit) : M unit := if b then c else ret tt.

(** Splitting a [\d+\.\d+] group at its dot for [float(...)]. *)
Fixpoint split_dot (s : string) : string * string :=
  match s with
  | EmptyString => (EmptyString, EmptyString)
  | String c s' =>
      if Ascii.eqb c "." then (EmptyString, s')
      else let '(a, b) := split_dot s' in (String c a, b)
  end.

(** [float(s)] for [s] matching [\d+\.\d+]; it cannot raise. *)
Definition float_of_match (s : string) : fl :=
  let '(a, b) := split_dot s in of_decimal a b.

Definition fl_6_5 : fl := Fin 13 (-1).
Definition fl_7_0 : fl := Fin 7 0.

(* ------------------------------------------------------------------ *)
(** ** Patterns *)

Definition P_version : regex := (lits "VMware ESXi " ++ [Open; Plus CDigit; Lit "."; Plus CDigit; Close])%list.
Definition P_uptime : regex := (lits "up" ++ [Plus CSpace; Open; Plus CDigit; Close; Plus CSpace] ++ lits "days")%list.
Definition P_cpu : regex :=
  [Open; Plus CWord; Close; Plus CSpace; Plus CDigit; Plus CSpace; Plus CDigit; Plus CSpace;
   Open; Plus CDigit; Lit "."; Plus CDigit; Close].
Definition P_mem_free : regex :=
  (lits "Free" ++ [Plus CSpace] ++ lits "Memory:" ++ [Plus CSpace; Open; Plus CDigit; Close; Plus CSpace] ++ lits "MB")%list.
Definition P_mem_total : regex :=
  (lits "Total" ++ [Plus CSpace] ++ lits "Memory:" ++ [Plus CSpace; Open; Plus CDigit; Close; Plus CSpace] ++ lits "MB")%list.
Definition P_health : regex := (lits "HealthState:" ++ [Plus CSpace; Open; Plus CWord; Close])%list.
Definition P_latency : regex :=
  ([Open; Plus CNonSpace; Close; Plus CSpace; Plus CNonSpace; Plus CSpace; Plus CNonSpace; Plus CSpace;
    Open; Plus CDigit; Lit "."; Plus CDigit; Close; Plus CSpace] ++ lits "ms")%list.
Definition P_space : regex :=
  [Open; Plus CNonSpace; Close; Plus CSpace; Plus CNonSpace; Plus CSpace;
   Open; Plus CDigit; Close; Plus CSpace; Open; Plus CDigit; Close; Plus CSpace;
   Open; Plus CDigit; Close; Lit "%"].
Definition P_vswitch : regex := (lits "vSwitch Name:" ++ [Plus CSpace; Open; Plus CNonSpace; Close])%list.
Definition P_snapshot : regex :=
  ([Open; Plus CNonSpace; Close; Plus CSpace; Plus CNonSpace; Plus CSpace; Plus CNonSpace; Plus CSpace;
    Open; Plus CDigit; Close; Plus CSpace] ++ lits "snapshot")%list.

(* ------------------------------------------------------------------ *)
(** ** [IssueAnalyzer._analyze_system_info] *)

Definition version_check (version_data : string) : M unit :=
  match search P_version version_data with
  | Some m =>
      let version := group m 1 in
      let version_num := float_of_match version in
      if xlt (to_xr version_num) (to_xr fl_6_5) then
        append (mkIssue "EOL ESXi Version"
          ("ESXi version " ++ version ++ " has reached end of life and is no longer receiving security updates")
          CATEGORY_SECURITY SEVERITY_HIGH
          ["Detected ESXi version: " ++ version]
          "Upgrade to a supported ESXi version (7.0 or newer recommended)"
          ["https://kb.vmware.com/s/article/2145103"])
      else if xlt (to_xr version_num) (to_xr fl_7_0) then
        append (mkIssue "Outdated ESXi Version"
          ("ESXi version " ++ version ++ " is outdated and will soon reach end of life")
          CATEGORY_SECURITY SEVERITY_MEDIUM
          ["Detected ESXi version: " ++ version]
          "Consider upgrading to ESXi 7.0 or newer for the latest features and security updates"
          ["https://kb.vmware.com/s/article/2145103"])
      else ret tt
  | None => ret tt
  end.

Definition uptime_check (cfg : Config) (uptime_data : string) : M unit :=
  let max_uptime_days := threshold_or cfg "max_uptime_days" (PInt 180) in
  match search P_uptime uptime_data with
  | Some m =>
      let days := int_of_digits (group m 1) in
      when (xlt (num_xr max_uptime_days) (XFin days 1))
        (append (mkIssue "Excessive Uptime"
          ("The ESXi host has been running for " ++ str_int days ++ " days without a reboot")
          CATEGORY_SECURITY SEVERITY_MEDIUM
          ["System uptime: " ++ str_int days ++ " days"]
          "Schedule a maintenance window to apply pending updates and reboot the host"
          ["https://kb.vmware.com/s/article/2032823"]))
  | None => ret tt
  end.

Definition analyze_system_info (cfg : Config) (st : Staging) : M unit :=
  let version_data := read_file st "system_version.txt" in
  let uptime_data := read_file st "system_uptime.txt" in
  version_check version_data ;;; uptime_check cfg uptime_data.

(* ------------------------------------------------------------------ *)
(** ** [IssueAnalyzer._analyze_performance] *)

Definition cpu_check (cfg : Config) (cpu_stats : string) : M unit :=
  let high_cpu_threshold := threshold_or cfg "high_cpu_percent" (PInt 80) in
  when (contains "%PCPU" cpu_stats)
    (let high_cpu_matches := findall false P_cpu cpu_stats in
     let high_cpu_processes :=
       flat_map (fun g =>
         match g with
         | [proc; usage] =>
             if xlt (num_xr high_cpu_threshold) (to_xr (float_of_match usage))
             then [proc ++ ": " ++ usage ++ "% CPU"] else []
         | _ => []
         end) high_cpu_matches in
     match high_cpu_processes with
     | [] => ret tt
     | _ =>
         let kb_article := kb_or cfg "high_cpu" "https://kb.vmware.com/s/article/2001003" in
         append (mkIssue "High CPU Utilization"
           ("Some processes are consuming excessive CPU resources (>" ++ str_num high_cpu_threshold ++ "%)")
           CATEGORY_CPU SEVERITY_MEDIUM high_cpu_processes
           "Investigate high CPU consuming processes and consider optimizing workloads or adding resources"
           [kb_article])
     end).

(** [free_percent] and [used_percent] as the detector computes them. *)
Definition free_percent_of (q : fl) : fl := mul q (of_int 100).
Definition used_percent_of (q : fl) : fl := sub (of_int 100) (free_percent_of q).

Definition memory_issue (free_mem total_mem : Z) (free_percent : fl) : Issue :=
  mkIssue "Low Available Memory"
    ("The ESXi host is running low on available memory (" ++ fmt_1f free_percent ++ "% free)")
    CATEGORY_MEMORY SEVERITY_HIGH
    ["Free memory: " ++ str_int free_mem ++ " MB out of " ++ str_int total_mem ++ " MB ("
       ++ fmt_1f free_percent ++ "%)"]
    "Consider adding more memory or reducing VM memory allocations"
    ["https://kb.vmware.com/s/article/1003501"].

Definition memory_check (cfg : Config) (memory_info : string) : M unit :=
  let high_memory_threshold := threshold_or cfg "high_memory_percent" (PInt 90) in
  match search P_mem_free memory_info, search P_mem_total memory_info with
  | Some mf, Some mt =>
      let free_mem := int_of_digits (group mf 1) in
      let total_mem := int_of_digits (group mt 1) in
      if (0 <? total_mem)%Z then
        match int_truediv free_mem total_mem with
        | None => throw OverflowError
        | Some q =>
            let free_percent := free_percent_of q in
            let used_percent := used_percent_of q in
            when (xlt (num_xr high_memory_threshold) (to_xr used_percent))
              (append (memory_issue free_mem total_mem free_percent))
        end
      else ret tt
  | _, _ => ret tt
  end.

Definition analyze_performance (cfg : Config) (st : Staging) : M unit :=
  let cpu_stats := read_file st "perf_cpu_stats.txt" in
  let memory_info := read_file st "perf_memory_info.txt" in
  cpu_check cfg cpu_stats ;;; memory_check cfg memory_info.

(* ------------------------------------------------------------------ *)
(** ** [IssueAnalyzer._analyze_hardware] *)

Definition any_in (keys : list string) (line : string) : bool :=
  existsb (fun k => contains k line) keys.

(** [[line.strip() for line in text.split('\n') if keep(line)]]. *)
Definition matching_lines (keep : string -> bool) (text : string) : list string :=
  map strip (filter keep (lines text)).

Definition analyze_hardware (cfg : Config) (st : Staging) : M unit :=
  let hw_status := read_file st "hw_health_status.txt" in
  let sensors := read_file st "hw_sensors.txt" in
  when (contains "HealthState:" hw_status)
    (match search P_health hw_status with
     | Some m =>
         when (negb (String.eqb (lower (group m 1)) "green"))
           (append (mkIssue "Hardware Health Warning"
              ("The hardware health status is not optimal: " ++ group m 1)
              CATEGORY_HARDWARE SEVERITY_HIGH
              ["Hardware health state: " ++ group m 1]
              "Check hardware sensors and logs for specific hardware failures"
              ["https://kb.vmware.com/s/article/2004161"]))
     | None => ret tt
     end) ;;;
  let sensor_issues :=
    matching_lines (fun line => any_in ["red"; "yellow"; "warning"; "critical"] (lower line)) sensors in
  match sensor_issues with
  | [] => ret tt
  | _ =>
      append (mkIssue "Sensor Warning"
        "One or more hardware sensors are reporting warnings or critical values"
        CATEGORY_HARDWARE SEVERITY_HIGH sensor_issues
        "Investigate the hardware component mentioned in the sensor warning"
        ["https://kb.vmware.com/s/article/2033588"])
  end.

(* ------------------------------------------------------------------ *)
(** ** [IssueAnalyzer._analyze_storage] *)

(** [[f(m) for line in text.split('\n') if (m := re.search(p, line)) and
    keep(m)]], the shape of the per-line scans below. *)
Definition scan_lines (p : regex) (keep : mobj -> bool) (f : mobj -> string)
    (text : string) : list string :=
  flat_map (fun line =>
    match search p line with
    | Some m => if keep m then [f m] else []
    | None => []
    end) (lines text).

Definition analyze_storage (cfg : Config) (st : Staging) : M unit :=
  let storage_devices := read_file st "hw_storage_devices.txt" in
  let disk_latency := read_file st "perf_disk_latency.txt" in
  let datastore_info := read_file st "vm_datastore_info.txt" in
  let high_latency_ms := threshold_or cfg "high_latency_ms" (PFloat (Fin 20 0)) in
  let low_space_percent := threshold_or cfg "low_datastore_space_percent" (PInt 10) in
  let storage_issues := matching_lines (any_in ["Error"; "Degraded"; "Offline"]) storage_devices in
  match storage_issues with
  | [] => ret tt
  | _ =>
      let kb_article := kb_or cfg "storage_latency" "https://kb.vmware.com/s/article/1003659" in
      append (mkIssue "Storage Device Issues"
        "One or more storage devices are reporting errors or degraded state"
        CATEGORY_STORAGE SEVERITY_HIGH storage_issues
        "Check the storage hardware and consider replacing faulty devices"
        [kb_article])
  end ;;;
  let latency_issues :=
    scan_lines P_latency
      (fun m => xlt (num_xr high_latency_ms) (to_xr (float_of_match (group m 2))))
      (fun m => "Device " ++ group m 1 ++ ": " ++ group m 2 ++ "ms latency")
      disk_latency in
  match latency_issues with
  | [] => ret tt
  | _ =>
      let kb_article := kb_or cfg "storage_latency" "https://kb.vmware.com/s/article/2019131" in
      append (mkIssue "High Storage Latency"
        ("Some storage devices are experiencing high latency (>" ++ str_num high_latency_ms ++ "ms)")
        CATEGORY_STORAGE SEVERITY_MEDIUM latency_issues
        "Investigate storage bottlenecks and consider storage optimization or upgrades"
        [kb_article])
  end ;;;
  let space_issues :=
    scan_lines P_space
      (fun m => xlt (XFin (int_of_digits (group m 4)) 1) (num_xr low_space_percent))
      (fun m => "Datastore " ++ group m 1 ++ ": " ++ group m 4 ++ "% free space")
      datastore_info in
  match space_issues with
  | [] => ret tt
  | _ =>
      append (mkIssue "Low Datastore Space"
        ("Some datastores are running low on free space (<" ++ str_num low_space_percent ++ "%)")
        CATEGORY_STORAGE SEVERITY_HIGH space_issues
        "Free up space by removing unnecessary files or snapshots, or add more storage capacity"
        ["https://kb.vmware.com/s/article/1003412"])
  end.

(* ------------------------------------------------------------------ *)
(** ** [IssueAnalyzer._analyze_network] *)

(** [line.split(':', 1)[1]]: the text after the first colon. *)
Fixpoint after_colon (s : string) : string :=
  match s with
  | EmptyString => EmptyString
  | String c s' => if Ascii.eqb c ":" then s' else after_colon s'
  end.

(** [len([u for u in uplinks.split(',') if u.strip()])]. *)
Definition count_uplinks (uplinks : string) : Z :=
  Z.of_nat (List.length (filter (fun u => negb (String.eqb (strip u) "")) (split_char "," uplinks))).

Definition vswitch_msg (name : string) (n : Z) : string :=
  "vSwitch " ++ name ++ ": Only " ++ str_int n ++ " uplink(s)".

(** One iteration of the vSwitch loop on
    [(current_vswitch, uplinks_count, vswitch_issues)]. *)
Definition vswitch_step (acc : option string * Z * list string) (line : string)
    : option string * Z * list string :=
  let '(cur, cnt, iss) := acc in
  let '(cur, cnt, iss) :=
    match search P_vswitch line with
    | Some m =>
        let iss := match cur with
                   | Some c => if (cnt <? 2)%Z then (iss ++ [vswitch_msg c cnt])%list else iss
                   | None => iss
                   end in
        (Some (group m 1), 0%Z, iss)
    | None => (cur, cnt, iss)
    end in
  if contains "Uplinks:" line then (cur, count_uplinks (strip (after_colon line)), iss)
  else (cur, cnt, iss).

Definition vswitch_issues_of (vswitches : string) : list string :=
  let '(cur, cnt, iss) := fold_left vswitch_step (lines vswitches) (None, 0%Z, []) in
  match cur with
  | Some c => if (cnt <? 2)%Z then (iss ++ [vswitch_msg c cnt])%list else iss
  | None => iss
  end.

Definition analyze_network (cfg : Config) (st : Staging) : M unit :=
  let interfaces := read_file st "net_interfaces.txt" in
  let vswitches := read_file st "net_vswitches.txt" in
  let interface_issues := matching_lines (contains "Down") interfaces in
  match interface_issues with
  | [] => ret tt
  | _ =>
      append (mkIssue "Network Interface Down" "One or more network interfaces are down"
        CATEGORY_NETWORK SEVERITY_HIGH interface_issues
        "Check network cables, switch ports, and network configuration"
        ["https://kb.vmware.com/s/article/2008144"])
  end ;;;
  match vswitch_issues_of vswitches with
  | [] => ret tt
  | vswitch_issues =>
      append (mkIssue "Inadequate Network Redundancy"
        "Some vSwitches have insufficient uplink redundancy"
        CATEGORY_NETWORK SEVERITY_MEDIUM vswitch_issues
        "Configure additional uplinks for affected vSwitches to provide redundancy"
        ["https://kb.vmware.com/s/article/1003806"])
  end.

(* ------------------------------------------------------------------ *)
(** ** [IssueAnalyzer._analyze_vms] *)

Definition analyze_vms (cfg : Config) (st : Staging) : M unit :=
  let vm_list := read_file st "vm_list.txt" in
  let vm_state_issues := matching_lines (any_in ["Invalid"; "Stuck"; "Suspended"]) vm_list in
  match vm_state_issues with
  | [] => ret tt
  | _ =>
      append (mkIssue "VMs in Problematic State"
        "Some virtual machines are in an invalid or problematic state"
        CATEGORY_VM SEVERITY_MEDIUM vm_state_issues
        "Power cycle the affected VMs or migrate them to another host"
        ["https://kb.vmware.com/s/article/1004340"])
  end ;;;
  let snapshot_issues :=
    scan_lines P_snapshot
      (fun m => (3 <? int_of_digits (group m 2))%Z)
      (fun m => "VM " ++ group m 1 ++ ": " ++ group m 2 ++ " snapshots")
      vm_list in
  match snapshot_issues with
  | [] => ret tt
  | _ =>
      append (mkIssue "Excessive VM Snapshots"
        "Some VMs have an excessive number of snapshots which can impact performance and storage"
        CATEGORY_VM SEVERITY_MEDIUM snapshot_issues
        "Consolidate or remove unnecessary snapshots"
        ["https://kb.vmware.com/s/article/1025279"])
  end.

(* ------------------------------------------------------------------ *)
(** ** [IssueAnalyzer._analyze_logs] *)

(** One entry of [error_patterns]: its source text (as printed in the
    evidence), the compiled pattern and the issue template. *)
Record LogPattern := mkLogPattern {
  lp_source : string;
  lp_regex : regex;
  lp_title : string;
  lp_description : string;
  lp_category : string;
  lp_severity : string;
  lp_solution : string;
  lp_doc_links : list string }.

(** [error_patterns], in its (insertion) iteration order. *)
Definition error_patterns : list LogPattern :=
  [ mkLogPattern "SCSI\s+sense.*?Medium error"
      (lits "SCSI" ++ [Plus CSpace] ++ lits "sense" ++ [LazyStar CAny] ++ lits "Medium error")%list
      "Storage Medium Errors"
      "Storage devices are reporting medium errors which may indicate failing hardware"
      CATEGORY_STORAGE SEVERITY_HIGH
      "Run hardware diagnostics on the storage and consider replacing failing drives"
      ["https://kb.vmware.com/s/article/1008493"];
    mkLogPattern "NMP: nmp_ThrottleLogForDevice.*?device is blocked"
      (lits "NMP: nmp_ThrottleLogForDevice" ++ [LazyStar CAny] ++ lits "device is blocked")%list
      "Storage Device Throttling"
      "One or more storage devices are being throttled due to errors or performance issues"
      CATEGORY_STORAGE SEVERITY_HIGH
      "Check storage array health and connectivity"
      ["https://kb.vmware.com/s/article/2036778"];
    mkLogPattern "out\s+of\s+memory"
      (lits "out" ++ [Plus CSpace] ++ lits "of" ++ [Plus CSpace] ++ lits "memory")%list
      "Out of Memory Condition"
      "The ESXi host is experiencing memory pressure and may be running out of available memory"
      CATEGORY_MEMORY SEVERITY_CRITICAL
      "Add more physical memory or reduce memory consumption by VMs"
      ["https://kb.vmware.com/s/article/2005631"];
    mkLogPattern "CPU\s+usage.*?above.*?threshold"
      (lits "CPU" ++ [Plus CSpace] ++ lits "usage" ++ [LazyStar CAny] ++ lits "above"
         ++ [LazyStar CAny] ++ lits "threshold")%list
      "High CPU Utilization"
      "The ESXi host is experiencing high CPU utilization above configured thresholds"
      CATEGORY_CPU SEVERITY_MEDIUM
      "Identify resource-intensive VMs and consider load balancing or adding CPU resources"
      ["https://kb.vmware.com/s/article/2001003"];
    mkLogPattern "watchdog\s+timeout"
      (lits "watchdog" ++ [Plus CSpace] ++ lits "timeout")%list
      "Watchdog Timeout"
      "System watchdog timeout events detected which may indicate system instability"
      CATEGORY_HARDWARE SEVERITY_HIGH
      "Check for hardware issues and consider updating ESXi and firmware"
      ["https://kb.vmware.com/s/article/2042355"];
    mkLogPattern "Purple\s+Screen"
      (lits "Purple" ++ [Plus CSpace] ++ lits "Screen")%list
      "PSoD (Purple Screen of Death)"
      "The ESXi host has experienced one or more system crashes"
      CATEGORY_HARDWARE SEVERITY_CRITICAL
      "Collect diagnostic information and contact VMware support"
      ["https://kb.vmware.com/s/article/1004250"] ].

(** The sample of one match: [...{snippet}...] with 50 characters of
    context on each side, newlines turned into spaces, then stripped. *)
Definition sample (log_content : string) (m : mobj) : string :=
  let start := m_start m - 50 in
  let stop := Nat.min (String.length log_content) (m_end m + 50) in
  "Sample: ..." ++ strip (replace_char nl " " (slice start stop log_content)) ++ "...".

Definition log_issue (log_file log_content : string) (p : LogPattern) : option Issue :=
  let matches := findall true (lp_regex p) log_content in
  match matches with
  | [] => None
  | _ =>
      let evidence :=
        (log_file ++ ": " ++ str_int (Z.of_nat (List.length matches))
            ++ " occurrences of pattern '" ++ lp_source p ++ "'")
        :: map (sample log_content) (firstn 3 (finditer true (lp_regex p) log_content)) in
      Some (mkIssue (lp_title p) (lp_description p) (lp_category p) (lp_severity p)
              evidence (lp_solution p) (lp_doc_links p))
  end.

Definition analyze_log_file (name : string) (e : entry) : M unit :=
  match e with
  | EUnreadable => ret tt  (* the exception is caught and the file skipped *)
  | EFile log_content =>
      for_each error_patterns (fun p =>
        match log_issue name log_content p with
        | Some i => append i
        | None => ret tt
        end)
  end.

Definition analyze_logs (st : Staging) : M unit :=
  match logs st with
  | None => ret tt
  | Some LogsNotDir => throw NotADirectoryError
  | Some (LogsDir listing) =>
      for_each listing (fun '(name, e) => analyze_log_file name e)
  end.

(* ------------------------------------------------------------------ *)
(** ** [IssueAnalyzer.analyze] *)

Definition get_issues : M (list Issue) := fun s => Ok (s, s).

Definition analyze (cfg : Config) (st : Staging) : M (list Issue) :=
  analyze_system_info cfg st ;;;
  analyze_performance cfg st ;;;
  analyze_hardware cfg st ;;;
  analyze_storage cfg st ;;;
  analyze_network cfg st ;;;
  analyze_vms cfg st ;;;
  analyze_logs st ;;;
  get_issues.

(** The value [analyze()] returns (or the exception it raises) on an
    analyzer whose [self.issues] is [issues]. *)
Definition run_analyze (cfg : Config) (st : Staging) (issues : list Issue)
    : result (list Issue) :=
  match analyze cfg st issues with
  | Ok (r, _) => Ok r
  | Raise e => Raise e
  end.

(** A freshly constructed [IssueAnalyzer] starts with [self.issues = []]. *)
Definition analyze_fresh (cfg : Config) (st : Staging) : result (list Issue) :=
  run_analyze cfg st [].

End Analyzer.

(* ------------------------------------------------------------------ *)
(** ** The collector (collector.py [LogCollector]) *)

Module Collector.
Import Text.



(** The two numeric settings of the retry loop, after
    [config.get_ssh('retry_attempts') or 3] and
    [config.get_ssh('retry_delay') or 2]. *)
Record LogCollector := mkCollector { retry_attempts : Z; retry_delay : Z }.





(** [time.sleep(self.retry_delay * (2 ** attempt))] when
    [attempt < self.retry_attempts - 1]. *)
Definition backoff (c : LogCollector) (attempt : nat) : list Z :=
  if (Z.of_nat attempt <? retry_attempts c - 1)%Z
  then [(retry_delay c * 2 ^ Z.of_nat attempt)%Z] else [].



























End Collector.

(* ------------------------------------------------------------------ *)
(** ** Aggregation of findings (report.py [ReportGenerator._generate_html]) *)

Module Report.
Import Analyzer.

(** [severity_order.get(x.severity, 4)]. *)
Definition severity_rank (sev : string) : nat :=
  if String.eqb sev "critical" then 0
  else if String.eqb sev "high" then 1
  else if String.eqb sev "medium" then 2
  else if String.eqb sev "low" then 3
  else 4.

Definition rank (i : Issue) : nat := severity_rank (severity i).

(** [severity_counts]: the four known severities, in the dict's order;
    other severities are not counted. *)
Definition severity_counts (issues : list Issue) : list (string * nat) :=
  map (fun s => (s, List.length (filter (fun i => String.eqb (severity i) s) issues)))
    ["critical"; "high"; "medium"; "low"].

(** [sorted(issues, key=rank)]: Python's sort is stable, so its result is
    the one of this stable insertion sort (an element goes after every
    element of rank less than or equal to its own). *)
Fixpoint insert_issue (x : Issue) (l : list Issue) : list Issue :=
  match l with
  | [] => [x]
  | y :: l' => if Nat.leb (rank y) (rank x) then y :: insert_issue x l' else x :: l
  end.

Fixpoint sort_rev (acc : list Issue) (l : list Issue) : list Issue :=
  match l with
  | [] => acc
  | x :: l' => sort_rev (insert_issue x acc) l'
  end.

Definition sorted_issues (issues : list Issue) : list Issue := sort_rev [] issues.

(** [issues_by_category]: a dict filled from [sorted_issues], so its keys
    come in the order of first appearance in the sorted list. *)
Fixpoint add_to_category (i : Issue) (g : list (string * list Issue)) : list (string * list Issue) :=
  match g with
  | [] => [(category i, [i])]
  | (c, is) :: g' =>
      if String.eqb c (category i) then (c, (is ++ [i])%list) :: g'
      else (c, is) :: add_to_category i g'
  end.

Definition issues_by_category (issues : list Issue) : list (string * list Issue) :=
  fold_left (fun g i => add_to_category i g) (sorted_issues issues) [].

Definition aggregate (issues : list Issue) : list (string * nat) * list (string * list Issue) :=
  (severity_counts issues, issues_by_category issues).

End Report.

(* ------------------------------------------------------------------ *)
(** ** The HTML page of [ReportGenerator._generate_html] *)

Module ReportHtml.
Import Text Analyzer Report.

(** A double quote, written between the template's literal pieces. *)
Definition dq : string := String (ascii_of_nat 34) EmptyString.

(** [str.upper] on one Latin-1 character whose upper case is one
    Latin-1 character. *)
Definition upper_char (c : ascii) : ascii :=
  if in_range 97 122 c || (in_range 224 254 c && negb (Nat.eqb (code c) 247))
  then ascii_of_nat (code c - 32) else c.

(** [s.upper()]; the sharp s (code 223) becomes [SS].  The two Latin-1
    letters whose upper case lies outside Latin-1 (codes 181 and 255) are
    left as they are. *)
Fixpoint upper (s : string) : string :=
  match s with
  | EmptyString => EmptyString
  | String c s' =>
      if Nat.eqb (code c) 223 then "SS" ++ upper s' else String (upper_char c) (upper s')
  end.

(** [s.capitalize()]: the first character in title case, the rest lower. *)
Definition capitalize (s : string) : string :=
  match s with
  | EmptyString => EmptyString
  | String c s' =>
      (if Nat.eqb (code c) 223 then "Ss" else String (upper_char c) EmptyString) ++ lower s'
  end.

(** [{severity_counts[s]}]. *)
Definition count_str (counts : list (string * nat)) (s : string) : string :=
  str_int (Z.of_nat (match find (fun p => String.eqb (fst p) s) counts with
                     | Some (_, n) => n
                     | None => 0
                     end)).

Definition html_head (host_info timestamp : string) (counts : list (string * nat)) : string :=
  "<!DOCTYPE html>
<html lang=" ++ dq ++ "en" ++ dq ++ ">
<head>
    <meta charset=" ++ dq ++ "UTF-8" ++ dq ++ ">
    <meta name=" ++ dq ++ "viewport" ++ dq ++ " content=" ++ dq ++ "width=device-width, initial-scale=1.0" ++ dq ++ ">
    <title>ESXi Issue Analyzer Report</title>
    <style>
        body {
            font-family: Arial, sans-serif;
            line-height: 1.6;
            color: #333;
            max-width: 1200px;
            margin: 0 auto;
            padding: 20px;
        }
        header {
            background: #0066CC;
            color: white;
            padding: 20px;
            margin-bottom: 20px;
            border-radius: 5px;
        }
        h1, h2, h3 {
            margin-top: 0;
        }
        .summary {
            display: flex;
            justify-content: space-between;
            flex-wrap: wrap;
            margin-bottom: 30px;
        }
        .summary-box {
            background: #f5f5f5;
            border-radius: 5px;
            padding: 15px;
            width: calc(25% - 20px);
            box-sizing: border-box;
            text-align: center;
            box-shadow: 0 2px 5px rgba(0,0,0,0.1);
        }
        .critical {
            background: #ffebee;
            border-left: 5px solid #d32f2f;
        }
        .high {
            background: #fff8e1;
            border-left: 5px solid #ff8f00;
        }
        .medium {
            background: #e8f5e9;
            border-left: 5px solid #43a047;
        }
        .low {
            background: #e3f2fd;
            border-left: 5px solid #1976d2;
        }
        .issue {
            background: white;
            margin-bottom: 15px;
            padding: 15px;
            border-radius: 5px;
            box-shadow: 0 2px 5px rgba(0,0,0,0.1);
        }
        .issue-header {
            display: flex;
            justify-content: space-between;
            align-items: center;
        }
        .issue-title {
            margin: 0;
            font-size: 18px;
        }
        .severity-badge {
            padding: 5px 10px;
            border-radius: 3px;
            font-size: 14px;
            font-weight: bold;
            color: white;
        }
        .badge-critical { background: #d32f2f; }
        .badge-high { background: #ff8f00; }
        .badge-medium { background: #43a047; }
        .badge-low { background: #1976d2; }
        .evidence {
            background: #f5f5f5;
            padding: 10px;
            margin: 10px 0;
            border-radius: 5px;
            font-family: monospace;
            white-space: pre-wrap;
            max-height: 200px;
            overflow-y: auto;
        }
        .solution {
            background: #e8f5e9;
            padding: 10px;
            margin: 10px 0;
            border-radius: 5px;
        }
        .links {
            margin-top: 10px;
        }
        .category-section {
            margin-bottom: 30px;
        }
        @media (max-width: 768px) {
            .summary-box {
                width: calc(50% - 20px);
                margin-bottom: 20px;
            }
        }
    </style>
</head>
<body>
    <header>
        <h1>ESXi Issue Analyzer Report</h1>
        <p>Host: " ++ host_info ++ "</p>
        <p>Analysis Date: " ++ timestamp ++ "</p>
    </header>

    <div class=" ++ dq ++ "summary" ++ dq ++ ">
        <div class=" ++ dq ++ "summary-box critical" ++ dq ++ ">
            <h3>Critical Issues</h3>
            <p>" ++ (count_str counts "critical") ++ "</p>
        </div>
        <div class=" ++ dq ++ "summary-box high" ++ dq ++ ">
            <h3>High Severity</h3>
            <p>" ++ (count_str counts "high") ++ "</p>
        </div>
        <div class=" ++ dq ++ "summary-box medium" ++ dq ++ ">
            <h3>Medium Severity</h3>
            <p>" ++ (count_str counts "medium") ++ "</p>
        </div>
        <div class=" ++ dq ++ "summary-box low" ++ dq ++ ">
            <h3>Low Severity</h3>
            <p>" ++ (count_str counts "low") ++ "</p>
        </div>
    </div>
".

Definition no_issues_block : string :=
  "
    <div class=" ++ dq ++ "category-section" ++ dq ++ ">
        <h2>No Issues Found</h2>
        <p>No issues were detected in this ESXi host. This could mean either:</p>
        <ul>
            <li>The system is operating normally</li>
            <li>The collected data was insufficient for analysis</li>
            <li>There are issues present that the analyzer doesn't currently detect</li>
        </ul>
        <p>It's always a good practice to regularly monitor your ESXi hosts
        and apply updates as recommended by VMware.</p>
    </div>
".

Definition toc_open : string :=
  "
    <div class=" ++ dq ++ "category-section" ++ dq ++ ">
        <h2>Table of Contents</h2>
        <ul>
".

Definition toc_entry (entry : string * list Issue) : string :=
  let '(category, issues_list) := entry in
  let display_category := capitalize category in
  "            <li><a href=" ++ dq ++ "#" ++ category ++ dq ++ ">" ++ display_category ++ " Issues (" ++ (str_int (Z.of_nat (List.length issues_list))) ++ ")</a></li>
".

Definition toc_close : string :=
  "
        </ul>
    </div>
".

Definition issue_html (issue : Issue) : string :=
  let severity_class := "badge-" ++ severity issue in
  "
        <div class=" ++ dq ++ "issue " ++ (severity issue) ++ dq ++ ">
            <div class=" ++ dq ++ "issue-header" ++ dq ++ ">
                <h3 class=" ++ dq ++ "issue-title" ++ dq ++ ">" ++ (title issue) ++ "</h3>
                <span class=" ++ dq ++ "severity-badge " ++ severity_class ++ dq ++ ">" ++ (upper (severity issue)) ++ "</span>
            </div>
            <p>" ++ (description issue) ++ "</p>

            <h4>Evidence:</h4>
            <div class=" ++ dq ++ "evidence" ++ dq ++ ">"
  ++ String.concat "" (map (fun evidence_line => evidence_line ++ "
") (evidence issue))
  ++ "</div>

            <h4>Recommended Solution:</h4>
            <div class=" ++ dq ++ "solution" ++ dq ++ ">
                <p>" ++ (solution issue) ++ "</p>
            </div>
"
  ++ (match doc_links issue with
      | [] => ""
      | links =>
          "
            <div class=" ++ dq ++ "links" ++ dq ++ ">
                <h4>VMware Documentation:</h4>
                <ul>
"
          ++ String.concat "" (map (fun link => "                    <li><a href=" ++ dq ++ link ++ dq ++ " target=" ++ dq ++ "_blank" ++ dq ++ ">" ++ link ++ "</a></li>
") links)
          ++ "
                </ul>
            </div>
"
      end)
  ++ "
        </div>
".

Definition section_html (entry : string * list Issue) : string :=
  let '(category, category_issues) := entry in
  let display_category := capitalize category in
  "
    <div class=" ++ dq ++ "category-section" ++ dq ++ " id=" ++ dq ++ category ++ dq ++ ">
        <h2>" ++ display_category ++ " Issues</h2>
"
  ++ String.concat "" (map issue_html category_issues)
  ++ "
    </div>
".

Definition html_footer : string :=
  "
    <footer>
        <p>Generated by ESXi Issue Analyzer</p>
    </footer>
</body>
</html>
".

(** [_generate_html] with the report's [host_info] and [timestamp]. *)
Definition generate_html (host_info timestamp : string) (issues : list Issue) : string :=
  let counts := severity_counts issues in
  let groups := issues_by_category issues in
  html_head host_info timestamp counts
  ++ (match issues with
      | [] => no_issues_block
      | _ => toc_open ++ String.concat "" (map toc_entry groups) ++ toc_close
             ++ String.concat "" (map section_html groups)
      end)
  ++ html_footer.

End ReportHtml.


(* ------------------------------------------------------------------ *)
(** ** Readings of the specification used by the counterexamples *)

Module SpecSide.
Import Analyzer.

(** The category order the specification's aggregator promises: categories
    in the order they are first seen in the given (detection-ordered) list. *)
Definition first_seen_categories (issues : list Issue) : list string :=
  fold_left (fun ks i => if existsb (String.eqb (category i)) ks then ks else (ks ++ [category i])%list)
    issues [].

End SpecSide.

(* ------------------------------------------------------------------ *)
(** ** Views of the results used in the statements below *)

Module Views.
Import Text Regex F64 Analyzer Report.

(** Orders and selections on the report's findings. *)
Definition rank_le (a b : Issue) : Prop := rank a <= rank b.

Definition has_rank (r : nat) (i : Issue) : bool := Nat.eqb (rank i) r.

(** The findings of category [c] in a grouping ([[]] when absent). *)
Fixpoint group_of (c : string) (g : list (string * list Issue)) : list Issue :=
  match g with
  | [] => []
  | (c', is) :: g' => if String.eqb c' c then is else group_of c g'
  end.

Definition in_category (c : string) (i : Issue) : bool := String.eqb (category i) c.

Definition step_keys (ks : list string) (i : Issue) : list string :=
  if existsb (String.eqb (category i)) ks then ks else (ks ++ [category i])%list.

(** An entry that carries no evidence: unreadable, or read as [""]. *)
Definition no_evidence (e : entry) : bool :=
  match e with
  | EUnreadable => true
  | EFile c => String.eqb c ""
  end.

Definition logs_no_evidence (l : option logs_node) : bool :=
  match l with
  | None => true
  | Some (LogsDir listing) => forallb (fun p => no_evidence (snd p)) listing
  | Some LogsNotDir => false
  end.

(** Sample inputs. *)
Definition finding (cat sev : string) : Issue := mkIssue "" "" cat sev [] "" [].

(** The integer of group 1 of the first match of [p] in [s], if any. *)
Definition int_group (p : regex) (s : string) : option Z :=
  option_map (fun m => int_of_digits (group m 1)) (search p s).


Definition staging_no_evidence : Staging :=
  mkStaging [("system_version.txt", EFile ""); ("perf_memory_info.txt", EUnreadable)]
            (Some (LogsDir [("vmkernel.log", EFile ""); ("hostd.log", EUnreadable)])).

(** Two stagings with the same two log files, listed in either order. *)
Definition log_purple : string * entry := ("vmkernel.log", EFile "Purple Screen").
Definition log_watchdog : string * entry := ("vmkwarning.log", EFile "watchdog timeout").
Definition staging_logs_pw : Staging := mkStaging [] (Some (LogsDir [log_purple; log_watchdog])).
Definition staging_logs_wp : Staging := mkStaging [] (Some (LogsDir [log_watchdog; log_purple])).














(** What a detector appends to [self.issues] when started on [[]], or the
    exception it raises. *)
Definition out (c : M unit) : result (list Issue) :=
  match c [] with Ok (_, o) => Ok o | Raise e => Raise e end.

(** [self.issues] after appending the outcome [r] to [s]. *)
Definition extend (s : list Issue) (r : result (list Issue)) : result (unit * list Issue) :=
  match r with Ok o => Ok (tt, (s ++ o)%list) | Raise e => Raise e end.

(** A detector only appends: its effect on any [self.issues] is its effect
    on [[]] appended at the end. *)
Definition frame (c : M unit) : Prop := forall s, c s = extend s (out c).

(** Running outcomes one after another: the appended findings in order, or
    the first exception. *)
Fixpoint seq_out (rs : list (result (list Issue))) : result (list Issue) :=
  match rs with
  | [] => Ok []
  | Raise e :: _ => Raise e
  | Ok o :: rs' =>
      match seq_out rs' with
      | Ok o' => Ok (o ++ o')%list
      | Raise e => Raise e
      end
  end.










(** A finding's title, category and severity. *)
Definition kind (t c sev : string) (i : Issue) : Prop :=
  title i = t /\ category i = c /\ severity i = sev.

(** No finding, or exactly one satisfying [P]. *)
Definition at_most_one (P : Issue -> Prop) (o : list Issue) : Prop :=
  o = [] \/ exists i, o = [i] /\ P i.

(** [o] is made of one [at_most_one] block per predicate, in order. *)
Fixpoint slots (Ps : list (Issue -> Prop)) (o : list Issue) : Prop :=
  match Ps with
  | [] => o = []
  | P :: Ps' => exists o1 o2, o = (o1 ++ o2)%list /\ at_most_one P o1 /\ slots Ps' o2
  end.

(** Whatever [self.issues] is, [c] returns normally after appending a list
    of findings satisfying [Q]. *)
Definition emits (c : M unit) (Q : list Issue -> Prop) : Prop :=
  forall s, exists o, c s = Ok (tt, (s ++ o)%list) /\ Q o.

(** The findings [_analyze_logs] appends for one directory entry. *)
Definition log_file_findings (name : string) (e : entry) : list Issue :=
  match e with
  | EUnreadable => []
  | EFile c => flat_map (fun p => match log_issue name c p with Some i => [i] | None => [] end)
                 error_patterns
  end.

(** Number of lines of [text] holding a [vSwitch Name:] header. *)
Definition vswitch_headers (text : string) : nat :=
  List.length (filter (fun line => match search P_vswitch line with Some _ => true | None => false end)
                 (lines text)).

(** The invariant of the vSwitch loop after [k] header lines: one message
    per closed vSwitch with fewer than 2 uplinks, a non-negative count. *)
Definition vswitch_inv (acc : option string * Z * list string) (k : nat) : Prop :=
  let '(cur, cnt, iss) := acc in
  List.length iss + (if cur then 1 else 0) <= k /\ (0 <= cnt)%Z /\
  Forall (fun msg => exists name n, msg = vswitch_msg name n /\ (0 <= n < 2)%Z) iss.

End Views.

(* ================================================================== *)
(** * Proofs *)

Module F64Facts.
Import F64.
Local Open Scope Z_scope.


Lemma rhe_le_q1 a d : 0 < d -> round_half_even a d <= a / d + 1.
Proof.
  intro Hd. unfold round_half_even.
  destruct (d <? 2 * (a mod d)); [lia|].
  destruct (2 * (a mod d) =? d); [destruct (Z.odd (a / d)); lia | lia].
Qed.

(** Rounding does not cross an integer bound of the exact quotient. *)
Lemma rhe_le a d M : 0 < d -> a <= M * d -> round_half_even a d <= M.
Proof.
  intros Hd H.
  pose proof (Z.div_mod a d ltac:(lia)) as Ea.
  pose proof (Z.mod_pos_bound a d Hd) as Hr.
  assert (Hq : a / d <= M) by (apply Z.div_le_upper_bound; lia).
  unfold round_half_even.
  destruct (Z.eq_dec (a / d) M) as [Eq|Nq].
  - assert (a mod d = 0) by nia.
    replace (a mod d) with 0 by lia.
    replace (d <? 2 * 0) with false by (symmetry; apply Z.ltb_ge; lia).
    replace (2 * 0 =? d) with false by (symmetry; apply Z.eqb_neq; lia). lia.
  - destruct (d <? 2 * (a mod d)); [lia|].
    destruct (2 * (a mod d) =? d); [destruct (Z.odd (a / d)); lia | lia].
Qed.




Lemma flog2_le_t a d : flog2 a d <= Z.log2 a - Z.log2 d.
Proof. unfold flog2. destruct (_ <=? _); lia. Qed.

Lemma flog2_ge_t a d : Z.log2 a - Z.log2 d - 1 <= flog2 a d.
Proof. unfold flog2. destruct (_ <=? _); lia. Qed.




Lemma flog2_le0 a d : 0 < a -> a <= d -> flog2 a d <= 0.
Proof.
  intros Ha H. pose proof (flog2_le_t a d). pose proof (Z.log2_le_mono a d H). lia.
Qed.





Lemma pow2_pos x : 0 <= x -> 0 < 2 ^ x.
Proof. intro. apply Z.pow_pos_nonneg; lia. Qed.

Lemma log2_le_pow m k : 0 <= k -> m <= 2 ^ k -> Z.log2 m <= k.
Proof.
  intros Hk H. rewrite <- (Z.log2_pow2 k Hk). apply Z.log2_le_mono. exact H.
Qed.

(** Division of two ints that fits: [F / T] with [0 <= F <= T]. *)
Lemma truediv_fits F T : 0 <= F <= T -> 0 < T -> exists q, int_truediv F T = Some q.
Proof.
  intros HF HT. unfold int_truediv.
  replace (0 <? T) with true by (symmetry; apply Z.ltb_lt; exact HT).
  unfold round_q. destruct (Z.eqb_spec F 0) as [|HF0]; [eexists; reflexivity|].
  rewrite Z.abs_eq by lia. cbv zeta.
  pose proof (flog2_le0 F T ltac:(lia) ltac:(lia)).
  set (e := Z.max (flog2 F T - 52) (-1074)).
  assert (He : e <= -52) by (unfold e; lia).
  replace (0 <=? e) with false by (symmetry; apply Z.leb_gt; lia).
  set (m := round_half_even (F * 2 ^ (- e)) T).
  assert (Hm : m <= 2 ^ (- e)).
  { apply rhe_le; [exact HT|]. pose proof (pow2_pos (- e) ltac:(lia)). nia. }
  pose proof (log2_le_pow m (- e) ltac:(lia) Hm).
  replace (1024 <=? Z.log2 m + e) with false by (symmetry; apply Z.leb_gt; lia).
  eexists; reflexivity.
Qed.



Lemma round_inf_fin_or_inf n d :
  0 <= n -> 0 < d ->
  (exists m e, round_inf n d = Fin m e) \/ round_inf n d = PInf.
Proof.
  intros Hn Hd. unfold round_inf. destruct (round_q n d) as [x|] eqn:E.
  - left. unfold round_q in E. destruct (n =? 0); [injection E as <-; eauto|].
    destruct (1024 <=? _); [discriminate|]. injection E as <-. eauto.
  - right. unfold round_q in E. destruct (Z.eqb_spec n 0); [discriminate|].
    replace (0 <? n) with true by (symmetry; apply Z.ltb_lt; lia). reflexivity.
Qed.

End F64Facts.

Module VersionFacts.
Import Text Regex F64 Analyzer Views F64Facts.
Local Open Scope Z_scope.

Lemma digits_value_acc_nonneg s : forall acc, 0 <= acc -> 0 <= digits_value_acc acc s.
Proof. induction s as [|c s IH]; intros acc H; simpl; [lia|]. apply IH. lia. Qed.




End VersionFacts.


Module ReportFacts.
Import Analyzer Report Views.

Lemma insert_issue_perm x l : Permutation (insert_issue x l) (x :: l).
Proof.
  induction l as [|y l IH]; simpl; [reflexivity|].
  destruct (Nat.leb (rank y) (rank x)); [|reflexivity].
  eapply perm_trans; [apply perm_skip, IH|apply perm_swap].
Qed.

Lemma insert_issue_forall (P : Issue -> Prop) x l :
  P x -> Forall P l -> Forall P (insert_issue x l).
Proof.
  intros Hx Hl. apply (Permutation_Forall (Permutation_sym (insert_issue_perm x l))).
  constructor; assumption.
Qed.

Lemma insert_issue_sorted x l :
  StronglySorted rank_le l ->
  StronglySorted rank_le (insert_issue x l).
Proof.
  induction l as [|y l IH]; intro Hs; simpl.
  - repeat constructor.
  - inversion Hs as [|? ? Hs' Hall]; subst.
    destruct (Nat.leb (rank y) (rank x)) eqn:E.
    + apply Nat.leb_le in E. constructor; [apply IH, Hs'|].
      apply insert_issue_forall; assumption.
    + apply Nat.leb_gt in E. constructor; [exact Hs|].
      constructor; [unfold rank_le; lia|].
      eapply Forall_impl; [|exact Hall]. unfold rank_le; intros; lia.
Qed.

Lemma filter_all_false {A} (f : A -> bool) l :
  Forall (fun z => f z = false) l -> filter f l = [].
Proof. induction 1 as [|z l Hz _ IH]; simpl; [reflexivity|]. rewrite Hz; exact IH. Qed.

Lemma insert_issue_filter r x l :
  StronglySorted rank_le l ->
  filter (has_rank r) (insert_issue x l)
  = (filter (has_rank r) l ++ (if has_rank r x then [x] else []))%list.
Proof.
  induction l as [|y l IH]; intro Hs; simpl.
  - destruct (has_rank r x); reflexivity.
  - inversion Hs as [|? ? Hs' Hall]; subst.
    destruct (Nat.leb (rank y) (rank x)) eqn:E; simpl.
    + rewrite IH by exact Hs'. destruct (has_rank r y); reflexivity.
    + apply Nat.leb_gt in E.
      destruct (has_rank r x) eqn:Hx; simpl.
      * unfold has_rank in Hx. apply Nat.eqb_eq in Hx.
        assert (Hy : has_rank r y = false) by (apply Nat.eqb_neq; lia).
        assert (Hl : filter (has_rank r) l = []).
        { apply filter_all_false. eapply Forall_impl; [|exact Hall].
          unfold rank_le, has_rank; intros z Hz; apply Nat.eqb_neq; lia. }
        rewrite Hy, Hl. reflexivity.
      * destruct (has_rank r y); rewrite app_nil_r; reflexivity.
Qed.

Lemma sort_rev_sorted acc l :
  StronglySorted rank_le acc -> StronglySorted rank_le (sort_rev acc l).
Proof.
  revert acc; induction l as [|x l IH]; intros acc H; simpl; [exact H|].
  apply IH, insert_issue_sorted, H.
Qed.

Lemma sort_rev_filter r acc l :
  StronglySorted rank_le acc ->
  filter (has_rank r) (sort_rev acc l) = (filter (has_rank r) acc ++ filter (has_rank r) l)%list.
Proof.
  revert acc; induction l as [|x l IH]; intros acc H; simpl.
  - rewrite app_nil_r; reflexivity.
  - rewrite IH by (apply insert_issue_sorted, H).
    rewrite insert_issue_filter by exact H.
    rewrite <- app_assoc. destruct (has_rank r x); reflexivity.
Qed.

Lemma sorted_issues_sorted l : StronglySorted rank_le (sorted_issues l).
Proof. apply sort_rev_sorted. constructor. Qed.

(** Stability: the findings of each rank keep their detection order. *)
Lemma sorted_issues_stable r l :
  filter (has_rank r) (sorted_issues l) = filter (has_rank r) l.
Proof. unfold sorted_issues. rewrite sort_rev_filter by constructor. reflexivity. Qed.

Lemma add_to_category_group c i g :
  group_of c (add_to_category i g)
  = (group_of c g ++ (if in_category c i then [i] else []))%list.
Proof.
  unfold in_category.
  induction g as [|[c' is] g IH]; simpl.
  - destruct (String.eqb_spec c (category i)), (String.eqb_spec (category i) c);
      congruence.
  - destruct (String.eqb_spec c' (category i)); simpl.
    + subst c'. destruct (String.eqb_spec (category i) c); simpl;
        [reflexivity| rewrite app_nil_r; reflexivity].
    + destruct (String.eqb_spec c' c); [|exact IH].
      subst c'. destruct (String.eqb_spec (category i) c); [congruence|].
      rewrite app_nil_r. reflexivity.
Qed.

Lemma add_to_category_keys i g :
  map fst (add_to_category i g) = step_keys (map fst g) i.
Proof.
  unfold step_keys.
  induction g as [|[c' is] g IH]; simpl; [reflexivity|].
  rewrite (String.eqb_sym (category i) c').
  destruct (String.eqb c' (category i)); simpl; [reflexivity|].
  rewrite IH. destruct (existsb _ _); reflexivity.
Qed.

Lemma fold_groups c l g :
  group_of c (fold_left (fun g i => add_to_category i g) l g)
  = (group_of c g ++ filter (in_category c) l)%list.
Proof.
  revert g; induction l as [|i l IH]; intro g; simpl.
  - rewrite app_nil_r; reflexivity.
  - rewrite IH, add_to_category_group, <- app_assoc.
    destruct (in_category c i); reflexivity.
Qed.

Lemma fold_keys l g :
  map fst (fold_left (fun g i => add_to_category i g) l g)
  = fold_left step_keys l (map fst g).
Proof.
  revert g; induction l as [|i l IH]; intro g; simpl; [reflexivity|].
  rewrite IH, add_to_category_keys. reflexivity.
Qed.

Lemma filter_comm {A} (f g : A -> bool) l :
  filter f (filter g l) = filter g (filter f l).
Proof.
  induction l as [|x l IH]; simpl; [reflexivity|].
  destruct (g x) eqn:Eg, (f x) eqn:Ef; simpl; rewrite ?Eg, ?Ef, IH; reflexivity.
Qed.

Lemma strongly_sorted_filter {A} (R : A -> A -> Prop) (f : A -> bool) l :
  StronglySorted R l -> StronglySorted R (filter f l).
Proof.
  induction 1 as [|x l _ IH Hall]; simpl; [constructor|].
  destruct (f x); [|exact IH].
  constructor; [exact IH|].
  apply Forall_forall. intros y Hy. apply filter_In in Hy.
  exact (proj1 (Forall_forall _ _) Hall y (proj1 Hy)).
Qed.

End ReportFacts.

Module EmptyStaging.
Import Text Regex F64 Analyzer Views.

Lemma read_file_no_evidence (st : Staging) :
  forallb (fun p => no_evidence (snd p)) (artifacts st) = true ->
  forall f, read_file st f = "".
Proof.
  intros H f. unfold read_file.
  induction (artifacts st) as [|[n e] l IH]; [reflexivity|].
  simpl in H |- *. apply andb_prop in H as [He Hl].
  destruct (String.eqb n f); [|exact (IH Hl)].
  destruct e as [c|]; [|reflexivity].
  simpl in He. apply String.eqb_eq in He. exact He.
Qed.

Ltac empty_detector H :=
  unfold analyze_system_info, analyze_performance, analyze_hardware,
    analyze_storage, analyze_network, analyze_vms;
  rewrite !H; reflexivity.

Section NoEvidence.
Variable cfg : Config.
Variable st : Staging.
Hypothesis Hread : forall f, read_file st f = "".

Lemma system_info_no_evidence s : analyze_system_info cfg st s = Ok (tt, s).
Proof. empty_detector Hread. Qed.

Lemma performance_no_evidence s : analyze_performance cfg st s = Ok (tt, s).
Proof. empty_detector Hread. Qed.

Lemma hardware_no_evidence s : analyze_hardware cfg st s = Ok (tt, s).
Proof. empty_detector Hread. Qed.

Lemma storage_no_evidence s : analyze_storage cfg st s = Ok (tt, s).
Proof. empty_detector Hread. Qed.

Lemma network_no_evidence s : analyze_network cfg st s = Ok (tt, s).
Proof. empty_detector Hread. Qed.

Lemma vms_no_evidence s : analyze_vms cfg st s = Ok (tt, s).
Proof. empty_detector Hread. Qed.

End NoEvidence.

Lemma log_file_no_evidence name e s :
  no_evidence e = true -> analyze_log_file name e s = Ok (tt, s).
Proof.
  intro H. destruct e as [c|]; [|reflexivity].
  simpl in H. apply String.eqb_eq in H. subst c. reflexivity.
Qed.

Lemma logs_no_evidence_ok st s :
  logs_no_evidence (logs st) = true -> analyze_logs st s = Ok (tt, s).
Proof.
  unfold analyze_logs. destruct (logs st) as [[listing|]|]; simpl; try discriminate;
    [|reflexivity].
  intro H. induction listing as [|[n e] l IH]; [reflexivity|].
  simpl in H. apply andb_prop in H as [He Hl].
  simpl. unfold bind. rewrite (log_file_no_evidence n e s He). exact (IH Hl).
Qed.

End EmptyStaging.

Module FrameFacts.
Import Text Regex F64 Analyzer Views.

Lemma frame_ret : frame (ret tt).
Proof. intro s. unfold extend, out, ret. rewrite app_nil_r. reflexivity. Qed.

Lemma frame_append i : frame (append i).
Proof. intro s. reflexivity. Qed.

Lemma frame_throw e : frame (throw e).
Proof. intro s. reflexivity. Qed.

Lemma bind_frame {A} (c : M unit) (k : unit -> M A) s :
  frame c ->
  bind c k s = match out c with Ok o => k tt (s ++ o)%list | Raise e => Raise e end.
Proof.
  intro Hc. unfold bind. rewrite (Hc s). destruct (out c); reflexivity.
Qed.

Lemma out_bind (c : M unit) (k : unit -> M unit) :
  frame c -> frame (k tt) ->
  out (bind c k) = match out c with
                   | Ok o => match out (k tt) with
                             | Ok o' => Ok (o ++ o')%list
                             | Raise e => Raise e
                             end
                   | Raise e => Raise e
                   end.
Proof.
  intros Hc Hk. unfold out at 1. rewrite bind_frame by exact Hc.
  destruct (out c) as [o|e]; [|reflexivity].
  cbn [app]. rewrite (Hk o). destruct (out (k tt)); reflexivity.
Qed.

Lemma frame_bind (c : M unit) (k : unit -> M unit) :
  frame c -> (forall u, frame (k u)) -> frame (bind c k).
Proof.
  intros Hc Hk s. rewrite bind_frame by exact Hc.
  rewrite out_bind by auto.
  destruct (out c) as [o|e]; [|reflexivity].
  rewrite (Hk tt). destruct (out (k tt)) as [o'|e']; [|reflexivity].
  simpl. rewrite app_assoc. reflexivity.
Qed.

Lemma frame_when b c : frame c -> frame (when b c).
Proof. intro H. destruct b; [exact H | exact frame_ret]. Qed.

Lemma frame_for_each {A} (l : list A) (body : A -> M unit) :
  (forall x, frame (body x)) -> frame (for_each l body).
Proof.
  intro H. induction l as [|x l IH]; simpl.
  - exact frame_ret.
  - apply frame_bind; [apply H | intros _; exact IH].
Qed.

Lemma out_for_each {A} (l : list A) (body : A -> M unit) :
  (forall x, frame (body x)) ->
  out (for_each l body) = seq_out (map (fun x => out (body x)) l).
Proof.
  intro H. induction l as [|x l IH]; [reflexivity|].
  simpl for_each. rewrite out_bind; [|apply H|apply frame_for_each, H].
  rewrite IH. reflexivity.
Qed.

Ltac solve_frame :=
  repeat (cbv zeta; first
    [ apply frame_ret | apply frame_append | apply frame_throw
    | apply frame_bind; [|intros []]
    | apply frame_when
    | apply frame_for_each; intros []
    | match goal with |- frame (match ?x with _ => _ end) => destruct x end ]).

Lemma frame_system_info cfg st : frame (analyze_system_info cfg st).
Proof. unfold analyze_system_info, version_check, uptime_check. solve_frame. Qed.

Lemma frame_performance cfg st : frame (analyze_performance cfg st).
Proof. unfold analyze_performance, cpu_check, memory_check. solve_frame. Qed.

Lemma frame_hardware cfg st : frame (analyze_hardware cfg st).
Proof. unfold analyze_hardware. solve_frame. Qed.

Lemma frame_storage cfg st : frame (analyze_storage cfg st).
Proof. unfold analyze_storage. solve_frame. Qed.

Lemma frame_network cfg st : frame (analyze_network cfg st).
Proof. unfold analyze_network. solve_frame. Qed.

Lemma frame_vms cfg st : frame (analyze_vms cfg st).
Proof. unfold analyze_vms. solve_frame. Qed.

Lemma frame_log_file name e : frame (analyze_log_file name e).
Proof. unfold analyze_log_file. solve_frame. Qed.

Lemma frame_logs st : frame (analyze_logs st).
Proof. unfold analyze_logs. solve_frame; apply frame_log_file. Qed.

End FrameFacts.

Module EmitFacts.
Import Text Regex F64 Analyzer Views.

Lemma emits_one_ret P : emits (ret tt) (at_most_one P).
Proof. intro s. exists []. split; [rewrite app_nil_r; reflexivity | left; reflexivity]. Qed.

Lemma emits_one_append P i : P i -> emits (append i) (at_most_one P).
Proof. intros H s. exists [i]. split; [reflexivity | right; eauto]. Qed.

Lemma emits_one_when b c P : emits c (at_most_one P) -> emits (when b c) (at_most_one P).
Proof. intro H. destruct b; [exact H | apply emits_one_ret]. Qed.

Lemma emits_bind_slots c k P Ps :
  emits c (at_most_one P) -> emits k (slots Ps) -> emits (c ;;; k) (slots (P :: Ps)).
Proof.
  intros Hc Hk s. destruct (Hc s) as (o1 & E1 & H1). unfold bind. rewrite E1.
  destruct (Hk (s ++ o1)%list) as (o2 & E2 & H2). exists (o1 ++ o2)%list.
  rewrite E2, app_assoc. split; [reflexivity|]. exists o1, o2. auto.
Qed.

Lemma emits_last c P : emits c (at_most_one P) -> emits c (slots [P]).
Proof.
  intros H s. destruct (H s) as (o & E & Ho). exists o. split; [exact E|].
  exists o, []. rewrite app_nil_r. split; [reflexivity | split; [exact Ho | reflexivity]].
Qed.

Lemma slots_length Ps o : slots Ps o -> List.length o <= List.length Ps.
Proof.
  revert o. induction Ps as [|P Ps IH]; intros o H; simpl in H.
  - subst. simpl. lia.
  - destruct H as (o1 & o2 & -> & H1 & H2). rewrite length_app. simpl.
    apply IH in H2. destruct H1 as [->|(i & -> & _)]; simpl; lia.
Qed.

Ltac one_slot :=
  repeat (cbv zeta; first
    [ apply emits_one_ret
    | apply emits_one_append;
        first [ solve [repeat split] | solve [left; repeat split] | solve [right; repeat split] ]
    | apply emits_one_when
    | match goal with |- emits (match ?x with _ => _ end) _ => destruct x end ]).

Ltac all_slots :=
  repeat (cbv zeta; first
    [ apply emits_bind_slots; [one_slot|]
    | apply emits_last; one_slot ]).

End EmitFacts.

Module ConnFacts.
Import Collector Views.



Lemma backoff_last c :
  (0 < retry_attempts c)%Z -> backoff c (Z.to_nat (retry_attempts c) - 1) = [].
Proof.
  intro H. unfold backoff.
  replace (Z.of_nat (Z.to_nat (retry_attempts c) - 1) <? retry_attempts c - 1)%Z
    with false by (symmetry; apply Z.ltb_ge; lia).
  reflexivity.
Qed.

End ConnFacts.

Module ConnClaims.
Import Collector Views ConnFacts.




End ConnClaims.

Module CollectFacts.
Import Collector Views.













End CollectFacts.

Module CollectClaims.
Import Collector Views CollectFacts.





End CollectClaims.

Module EngineClaims.
Import Text Regex F64 Analyzer Views FrameFacts.

(** C2 (counterexample): the log findings follow the order in which
    [os.listdir] returns the log files, so the same two log files with the
    same contents, listed in the other order, give a differently ordered
    finding list. *)
Lemma C2_listing_order_counterexample :
  analyze_fresh default_config staging_logs_pw
  <> analyze_fresh default_config staging_logs_wp.
Proof. vm_compute. discriminate. Qed.

(** C2 (amended): [analyze()] runs the detectors in the fixed order
    system, performance, hardware, storage, network, vm, logs; each only
    appends, so its result is the previous [self.issues] followed by each
    detector's own findings in that order (or the first exception).  The
    logs detector's findings are those of each log file in the order of
    the directory listing.  The result is thus determined by the
    configuration, the artifacts and the listing order, and a second call
    on the same analyzer returns the earlier findings again in front. *)
Theorem C2_analyze_detector_order (cfg : Config) (st : Staging) (issues : list Issue) :
  run_analyze cfg st issues =
    match seq_out [out (analyze_system_info cfg st); out (analyze_performance cfg st);
                   out (analyze_hardware cfg st); out (analyze_storage cfg st);
                   out (analyze_network cfg st); out (analyze_vms cfg st);
                   out (analyze_logs st)] with
    | Ok o => Ok (issues ++ o)%list
    | Raise e => Raise e
    end /\
  out (analyze_logs st) =
    match logs st with
    | None => Ok []
    | Some LogsNotDir => Raise NotADirectoryError
    | Some (LogsDir listing) =>
        seq_out (map (fun p => out (analyze_log_file (fst p) (snd p))) listing)
    end.
Proof.
  split.
  - unfold run_analyze, analyze.
    rewrite bind_frame by apply frame_system_info.
    destruct (out (analyze_system_info cfg st)) as [o1|e]; [|reflexivity].
    rewrite bind_frame by apply frame_performance.
    destruct (out (analyze_performance cfg st)) as [o2|e]; [|reflexivity].
    rewrite bind_frame by apply frame_hardware.
    destruct (out (analyze_hardware cfg st)) as [o3|e]; [|reflexivity].
    rewrite bind_frame by apply frame_storage.
    destruct (out (analyze_storage cfg st)) as [o4|e]; [|reflexivity].
    rewrite bind_frame by apply frame_network.
    destruct (out (analyze_network cfg st)) as [o5|e]; [|reflexivity].
    rewrite bind_frame by apply frame_vms.
    destruct (out (analyze_vms cfg st)) as [o6|e]; [|reflexivity].
    rewrite bind_frame by apply frame_logs.
    destruct (out (analyze_logs st)) as [o7|e]; [|reflexivity].
    simpl. rewrite !app_nil_r, !app_assoc. reflexivity.
  - unfold analyze_logs. destruct (logs st) as [[listing|]|]; try reflexivity.
    rewrite out_for_each by (intros [n e]; apply frame_log_file).
    f_equal. apply map_ext. intros [n e]. reflexivity.
Qed.

End EngineClaims.

Module ReportClaims.
Import Analyzer Report Views ReportFacts.

(** C8 (counterexample): the grouping does not keep the order in which the
    categories are first seen in the detection-ordered list: a medium
    storage finding detected before a critical cpu finding puts the cpu
    group first. *)
Lemma C8_category_order_counterexample :
  map fst (issues_by_category [finding CATEGORY_STORAGE SEVERITY_MEDIUM;
                               finding CATEGORY_CPU SEVERITY_CRITICAL])
  <> SpecSide.first_seen_categories [finding CATEGORY_STORAGE SEVERITY_MEDIUM;
                                     finding CATEGORY_CPU SEVERITY_CRITICAL].
Proof. vm_compute. discriminate. Qed.

(** C8 (amended): the aggregation is a pure function of the finding list.
    The findings are stably sorted by severity rank (critical, high,
    medium, low, then unknown severities): sorted by rank, and the findings
    of each rank in detection order.  Categories are grouped in the order
    of their first appearance in that sorted list; each group holds the
    sorted findings of its category, so it is sorted by rank with ties in
    detection order.  Severities [medium, critical, low, high] come out as
    [critical, high, medium, low]. *)
Theorem C8_aggregation_sorted_grouping (issues : list Issue) :
  aggregate issues = (severity_counts issues, issues_by_category issues) /\
  StronglySorted rank_le (sorted_issues issues) /\
  (forall r, filter (has_rank r) (sorted_issues issues) = filter (has_rank r) issues) /\
  map fst (issues_by_category issues) = SpecSide.first_seen_categories (sorted_issues issues) /\
  (forall c, group_of c (issues_by_category issues) = filter (in_category c) (sorted_issues issues)) /\
  (forall c, StronglySorted rank_le (group_of c (issues_by_category issues)) /\
     forall r, filter (has_rank r) (group_of c (issues_by_category issues))
               = filter (has_rank r) (filter (in_category c) issues)) /\
  map severity (group_of CATEGORY_STORAGE (issues_by_category
    [finding CATEGORY_STORAGE SEVERITY_MEDIUM; finding CATEGORY_STORAGE SEVERITY_CRITICAL;
     finding CATEGORY_STORAGE SEVERITY_LOW; finding CATEGORY_STORAGE SEVERITY_HIGH]))
  = [SEVERITY_CRITICAL; SEVERITY_HIGH; SEVERITY_MEDIUM; SEVERITY_LOW].
Proof.
  assert (Hg : forall c, group_of c (issues_by_category issues)
                         = filter (in_category c) (sorted_issues issues)).
  { intro c. unfold issues_by_category. rewrite fold_groups. reflexivity. }
  split; [reflexivity|].
  split; [apply sorted_issues_sorted|].
  split; [intro r; apply sorted_issues_stable|].
  split; [unfold issues_by_category; rewrite fold_keys; reflexivity|].
  split; [exact Hg|].
  split; [|vm_compute; reflexivity].
  intro c. rewrite Hg. split.
  - apply strongly_sorted_filter, sorted_issues_sorted.
  - intro r. rewrite filter_comm, sorted_issues_stable, filter_comm. reflexivity.
Qed.

End ReportClaims.

Module AnalyzerClaims.
Import Text Regex F64 Analyzer Views.


Lemma threshold_memory_default :
  threshold_or default_config "high_memory_percent" (PInt 90) = PInt 90.
Proof. reflexivity. Qed.





(** C9: in a staging area where every artifact is absent, unreadable or
    empty, and the logs directory is absent or holds only unreadable or
    empty files, every detector reads [""] for every artifact (exactly as
    for an absent one), appends nothing and raises nothing; [analyze()]
    on a fresh analyzer returns the empty list.  In particular the empty
    staging area (nothing at all) gives the empty list. *)
Theorem C9_no_evidence_no_findings (cfg : Config) (st : Staging) (issues : list Issue)
    (Hart : forallb (fun p => no_evidence (snd p)) (artifacts st) = true)
    (Hlogs : logs_no_evidence (logs st) = true) :
  (forall f, read_file st f = read_file (mkStaging [] None) f) /\
  (forall s,
     analyze_system_info cfg st s = Ok (tt, s) /\
     analyze_performance cfg st s = Ok (tt, s) /\
     analyze_hardware cfg st s = Ok (tt, s) /\
     analyze_storage cfg st s = Ok (tt, s) /\
     analyze_network cfg st s = Ok (tt, s) /\
     analyze_vms cfg st s = Ok (tt, s) /\
     analyze_logs st s = Ok (tt, s)) /\
  run_analyze cfg st issues = Ok issues /\
  analyze_fresh cfg st = Ok [] /\
  analyze_fresh cfg (mkStaging [] None) = Ok [].
Proof.
  pose proof (EmptyStaging.read_file_no_evidence st Hart) as Hread.
  assert (Hdet : forall s,
     analyze_system_info cfg st s = Ok (tt, s) /\
     analyze_performance cfg st s = Ok (tt, s) /\
     analyze_hardware cfg st s = Ok (tt, s) /\
     analyze_storage cfg st s = Ok (tt, s) /\
     analyze_network cfg st s = Ok (tt, s) /\
     analyze_vms cfg st s = Ok (tt, s) /\
     analyze_logs st s = Ok (tt, s)).
  { intro s. repeat split.
    - apply EmptyStaging.system_info_no_evidence; exact Hread.
    - apply EmptyStaging.performance_no_evidence; exact Hread.
    - apply EmptyStaging.hardware_no_evidence; exact Hread.
    - apply EmptyStaging.storage_no_evidence; exact Hread.
    - apply EmptyStaging.network_no_evidence; exact Hread.
    - apply EmptyStaging.vms_no_evidence; exact Hread.
    - apply EmptyStaging.logs_no_evidence_ok; exact Hlogs. }
  assert (Hrun : forall s, run_analyze cfg st s = Ok s).
  { intro s. destruct (Hdet s) as (H1 & H2 & H3 & H4 & H5 & H6 & H7).
    unfold run_analyze, analyze, bind.
    rewrite H1, H2, H3, H4, H5, H6, H7. reflexivity. }
  split; [intro f; rewrite Hread; reflexivity|].
  split; [exact Hdet|].
  split; [apply Hrun|].
  split; [apply Hrun|].
  unfold analyze_fresh. reflexivity.
Qed.

Lemma C9_no_evidence_no_findings_witness :
  analyze_fresh default_config staging_no_evidence = Ok [].
Proof.
  destruct (C9_no_evidence_no_findings default_config staging_no_evidence []
              ltac:(vm_compute; reflexivity) ltac:(vm_compute; reflexivity))
    as (_ & _ & _ & H & _).
  exact H.
Defined.

End AnalyzerClaims.

Module VersionClaims.
Import Text Regex F64 Analyzer Views VersionFacts.
Local Open Scope Z_scope.



End VersionClaims.

Module MemoryClaims.
Import Text Regex F64 Analyzer Views F64Facts.
Local Open Scope Z_scope.




End MemoryClaims.

Module DetectorExtras.
Import Text Regex F64 Analyzer Views EmitFacts.

Theorem system_info_findings cfg st :
  emits (analyze_system_info cfg st)
    (slots [fun i => kind "EOL ESXi Version" CATEGORY_SECURITY SEVERITY_HIGH i \/
                     kind "Outdated ESXi Version" CATEGORY_SECURITY SEVERITY_MEDIUM i;
            kind "Excessive Uptime" CATEGORY_SECURITY SEVERITY_MEDIUM]).
Proof. unfold analyze_system_info, version_check, uptime_check. all_slots. Qed.

Theorem hardware_findings cfg st :
  emits (analyze_hardware cfg st)
    (slots [kind "Hardware Health Warning" CATEGORY_HARDWARE SEVERITY_HIGH;
            kind "Sensor Warning" CATEGORY_HARDWARE SEVERITY_HIGH]).
Proof. unfold analyze_hardware. all_slots. Qed.

Theorem storage_findings cfg st :
  emits (analyze_storage cfg st)
    (slots [kind "Storage Device Issues" CATEGORY_STORAGE SEVERITY_HIGH;
            kind "High Storage Latency" CATEGORY_STORAGE SEVERITY_MEDIUM;
            kind "Low Datastore Space" CATEGORY_STORAGE SEVERITY_HIGH]).
Proof. unfold analyze_storage. all_slots. Qed.

Theorem network_findings cfg st :
  emits (analyze_network cfg st)
    (slots [kind "Network Interface Down" CATEGORY_NETWORK SEVERITY_HIGH;
            kind "Inadequate Network Redundancy" CATEGORY_NETWORK SEVERITY_MEDIUM]).
Proof. unfold analyze_network. all_slots. Qed.

Theorem vms_findings cfg st :
  emits (analyze_vms cfg st)
    (slots [kind "VMs in Problematic State" CATEGORY_VM SEVERITY_MEDIUM;
            kind "Excessive VM Snapshots" CATEGORY_VM SEVERITY_MEDIUM]).
Proof. unfold analyze_vms. all_slots. Qed.


Lemma for_each_collect {A} (l : list A) (body : A -> M unit) (f : A -> list Issue) :
  (forall x s, body x s = Ok (tt, (s ++ f x)%list)) ->
  forall s, for_each l body s = Ok (tt, (s ++ flat_map f l)%list).
Proof.
  intro H. induction l as [|x l IH]; intro s; simpl.
  - unfold ret. rewrite app_nil_r. reflexivity.
  - unfold bind. rewrite H, IH, app_assoc. reflexivity.
Qed.

Lemma memory_alt cfg mem :
  emits (memory_check cfg mem) (at_most_one (kind "Low Available Memory" CATEGORY_MEMORY SEVERITY_HIGH))
  \/ ((forall s, memory_check cfg mem s = Raise OverflowError) /\
      exists F T, int_group P_mem_free mem = Some F /\ int_group P_mem_total mem = Some T /\
        (0 < T < F)%Z /\ int_truediv F T = None).
Proof.
  unfold memory_check, int_group.
  destruct (search P_mem_free mem) as [mf|]; [|left; apply emits_one_ret].
  destruct (search P_mem_total mem) as [mt|]; [|left; apply emits_one_ret].
  cbv zeta. destruct (Z.ltb_spec 0 (int_of_digits (group mt 1))) as [HT|HT];
    [|left; apply emits_one_ret].
  destruct (int_truediv (int_of_digits (group mf 1)) (int_of_digits (group mt 1))) as [q|] eqn:Eq.
  - left. apply emits_one_when, emits_one_append. repeat split.
  - right. split; [reflexivity|].
    exists (int_of_digits (group mf 1)), (int_of_digits (group mt 1)).
    split; [reflexivity|]. split; [reflexivity|]. split; [|exact Eq].
    split; [exact HT|].
    assert (HF : (0 <= int_of_digits (group mf 1))%Z)
      by (apply VersionFacts.digits_value_acc_nonneg; lia).
    destruct (Z.lt_ge_cases (int_of_digits (group mt 1)) (int_of_digits (group mf 1))) as [|Hle];
      [assumption|].
    destruct (F64Facts.truediv_fits _ _ (conj HF Hle) HT) as [q Hq]. congruence.
Qed.

Theorem performance_findings cfg st s :
  (exists o, analyze_performance cfg st s = Ok (tt, (s ++ o)%list) /\
     slots [kind "High CPU Utilization" CATEGORY_CPU SEVERITY_MEDIUM;
            kind "Low Available Memory" CATEGORY_MEMORY SEVERITY_HIGH] o)
  \/ (analyze_performance cfg st s = Raise OverflowError /\
      exists F T, int_group P_mem_free (read_file st "perf_memory_info.txt") = Some F /\
        int_group P_mem_total (read_file st "perf_memory_info.txt") = Some T /\
        (0 < T < F)%Z /\ int_truediv F T = None).
Proof.
  assert (Hcpu : emits (cpu_check cfg (read_file st "perf_cpu_stats.txt"))
                   (at_most_one (kind "High CPU Utilization" CATEGORY_CPU SEVERITY_MEDIUM)))
    by (unfold cpu_check; one_slot).
  destruct (Hcpu s) as (o1 & E1 & H1).
  unfold analyze_performance. cbv zeta. unfold bind. rewrite E1.
  destruct (memory_alt cfg (read_file st "perf_memory_info.txt")) as [Hm|[Hm Hx]].
  - left. destruct (Hm (s ++ o1)%list) as (o2 & E2 & H2). exists (o1 ++ o2)%list.
    rewrite E2, app_assoc. split; [reflexivity|].
    exists o1, o2. split; [reflexivity|]. split; [exact H1|].
    exists o2, []. rewrite app_nil_r. split; [reflexivity | split; [exact H2 | reflexivity]].
  - right. split; [apply Hm | exact Hx].
Qed.

Theorem logs_findings st s :
  analyze_logs st s =
    match logs st with
    | None => Ok (tt, s)
    | Some LogsNotDir => Raise NotADirectoryError
    | Some (LogsDir l) => Ok (tt, (s ++ flat_map (fun '(n, e) => log_file_findings n e) l)%list)
    end /\
  (forall n e, List.length (log_file_findings n e) <= List.length error_patterns).
Proof.
  split.
  - unfold analyze_logs. destruct (logs st) as [[l|]|]; try reflexivity.
    apply for_each_collect. intros [n e] s'. unfold analyze_log_file, log_file_findings.
    destruct e as [c|]; [|unfold ret; rewrite app_nil_r; reflexivity].
    apply for_each_collect. intros p s''.
    destruct (log_issue n c p); [reflexivity|unfold ret; rewrite app_nil_r; reflexivity].
  - intros n [c|]; unfold log_file_findings; [|simpl; lia].
    induction error_patterns as [|p ps IH]; simpl; [lia|].
    destruct (log_issue n c p); simpl; lia.
Qed.

Theorem log_issue_shape name c p :
  (log_issue name c p = None <-> findall true (lp_regex p) c = []) /\
  (forall i, log_issue name c p = Some i ->
     kind (lp_title p) (lp_category p) (lp_severity p) i /\
     description i = lp_description p /\ solution i = lp_solution p /\
     doc_links i = lp_doc_links p /\
     exists samples,
       evidence i = ((name ++ ": " ++ str_int (Z.of_nat (List.length (findall true (lp_regex p) c)))
                       ++ " occurrences of pattern '" ++ lp_source p ++ "'") :: samples)%string /\
       List.length samples = Nat.min 3 (List.length (finditer true (lp_regex p) c))).
Proof.
  unfold log_issue. destruct (findall true (lp_regex p) c) as [|m ms] eqn:E.
  - split; [split; reflexivity|]. intros i H. discriminate.
  - split; [split; discriminate|]. intros i H. injection H as <-.
    split; [repeat split|]. split; [reflexivity|]. split; [reflexivity|].
    split; [reflexivity|].
    exists (map (sample c) (firstn 3 (finditer true (lp_regex p) c))).
    split; [reflexivity|]. rewrite length_map, length_firstn. reflexivity.
Qed.


Lemma vswitch_step_inv acc line k :
  vswitch_inv acc k ->
  vswitch_inv (vswitch_step acc line)
    (k + if match search P_vswitch line with Some _ => true | None => false end then 1 else 0).
Proof.
  destruct acc as [[cur cnt] iss]. intros (Hl & Hc & Hf). unfold vswitch_step.
  assert (Hu : forall u, (0 <= count_uplinks u)%Z) by (intro; unfold count_uplinks; lia).
  destruct (search P_vswitch line) as [m|].
  - assert (H : List.length (match cur with
                  | Some c => if (cnt <? 2)%Z then (iss ++ [vswitch_msg c cnt])%list else iss
                  | None => iss end) <= List.length iss + (if cur then 1 else 0) /\
                Forall (fun msg => exists name n, msg = vswitch_msg name n /\ (0 <= n < 2)%Z)
                  (match cur with
                   | Some c => if (cnt <? 2)%Z then (iss ++ [vswitch_msg c cnt])%list else iss
                   | None => iss end)).
    { destruct cur as [c|]; [|split; [lia|exact Hf]].
      destruct (Z.ltb_spec cnt 2); [|split; [lia|exact Hf]].
      rewrite length_app. simpl. split; [lia|].
      apply Forall_app. split; [exact Hf|]. constructor; [|constructor]. eauto. }
    destruct H as [H1 H2].
    destruct (contains "Uplinks:" line); simpl; (split; [lia | split; [try apply Hu; lia | exact H2]]).
  - destruct (contains "Uplinks:" line); simpl; (split; [lia | split; [try apply Hu; lia | exact Hf]]).
Qed.

Lemma vswitch_fold_inv lines0 : forall acc k,
  vswitch_inv acc k ->
  vswitch_inv (fold_left vswitch_step lines0 acc)
    (k + List.length (filter (fun line => match search P_vswitch line with Some _ => true | None => false end) lines0)).
Proof.
  induction lines0 as [|line ls IH]; intros acc k H; simpl.
  - rewrite Nat.add_0_r. exact H.
  - pose proof (IH _ _ (vswitch_step_inv acc line k H)) as H'.
    destruct (search P_vswitch line); simpl in *; [rewrite <- Nat.add_assoc in H'|rewrite Nat.add_0_r in H'];
      exact H'.
Qed.

Theorem vswitch_issues_bound (vswitches : string) :
  List.length (vswitch_issues_of vswitches) <= vswitch_headers vswitches /\
  Forall (fun msg => exists name n, msg = vswitch_msg name n /\ (0 <= n < 2)%Z)
    (vswitch_issues_of vswitches).
Proof.
  unfold vswitch_issues_of, vswitch_headers.
  pose proof (vswitch_fold_inv (lines vswitches) (None, 0%Z, []) 0
                ltac:(simpl; split; [lia | split; [lia | constructor]])) as H.
  destruct (fold_left vswitch_step (lines vswitches) (None, 0%Z, [])) as [[cur cnt] iss].
  destruct H as (Hl & Hc & Hf). simpl in Hl.
  destruct cur as [c|]; [|split; [lia|exact Hf]].
  destruct (Z.ltb_spec cnt 2); [|split; [lia|exact Hf]].
  rewrite length_app. simpl. split; [lia|].
  apply Forall_app. split; [exact Hf|]. constructor; [|constructor]. eauto.
Qed.

End DetectorExtras.
